(** * GraphML reader and writer of networkx (networkx/readwrite/graphml.py)

    A shallow embedding of the GraphML codec and the properties of its
    specification.  The code is read under Python 3, where the class body of
    [GraphML] binds [unicode = str] and [long = int].

    - text is modelled by [string]; [str.lower] by ASCII lower-casing;
    - a Python [dict] is an association list in insertion order, updated in
      place ([dict_set]);
    - an exception is a [Raise] result; state (the writer's registry, the
      reader's flags) is passed explicitly;
    - the float type, its printer and the [int]/[float] text constructors are
      builtins of the interpreter and are taken as an interface
      ([Builtins]). *)

From Stdlib Require Import String Ascii ZArith List Bool Lia Arith DecimalString.
From Stdlib Require DecimalNat DecimalZ.
Import ListNotations.
Local Open Scope string_scope.
Local Open Scope list_scope.
Set Warnings "-register-all".

(** ** Exceptions and results *)

Inductive exn : Type :=
| NetworkXError (msg : string)
| KeyError
| ValueError
| TypeError
| IndexError
| AttributeError.

Inductive result (A : Type) : Type :=
| Ok (a : A)
| Raise (e : exn).
Arguments Ok {A} a.
Arguments Raise {A} e.

Definition bind {A C : Type} (m : result A) (f : A -> result C) : result C :=
  match m with
  | Ok a => f a
  | Raise e => Raise e
  end.

Notation "x <- m ;; k" := (bind m (fun x => k))
  (at level 61, m at next level, right associativity).
Notation "' p <- m ;; k" := (bind m (fun p => k))
  (at level 61, p pattern, m at next level, right associativity).

Definition is_ok {A : Type} (r : result A) : bool :=
  match r with Ok _ => true | Raise _ => false end.

(** A [for] loop whose body may raise, threading the loop state. *)
Fixpoint for_each {S X : Type} (body : S -> X -> result S) (xs : list X) (s : S)
  : result S :=
  match xs with
  | [] => Ok s
  | x :: xs' => s' <- body s x ;; for_each body xs' s'
  end.

(** ** Dictionaries in insertion order *)

Section Dict.
Context {K V : Type} (eqb : K -> K -> bool).

Fixpoint dict_get (d : list (K * V)) (k : K) : option V :=
  match d with
  | [] => None
  | (k', v) :: d' => if eqb k k' then Some v else dict_get d' k
  end.

(** [d[k] = v]: replace the value where [k] is, or add the entry last. *)
Fixpoint dict_set (d : list (K * V)) (k : K) (v : V) : list (K * V) :=
  match d with
  | [] => [(k, v)]
  | (k', v') :: d' =>
      if eqb k k' then (k', v) :: d' else (k', v') :: dict_set d' k v
  end.

Fixpoint dict_del (d : list (K * V)) (k : K) : list (K * V) :=
  match d with
  | [] => []
  | (k', v') :: d' => if eqb k k' then d' else (k', v') :: dict_del d' k
  end.

Definition dict_mem (d : list (K * V)) (k : K) : bool :=
  match dict_get d k with Some _ => true | None => false end.

(** [dict(pairs)] and [d.update(pairs)]: later pairs win. *)
Definition dict_update (d : list (K * V)) (l : list (K * V)) : list (K * V) :=
  fold_left (fun acc kv => dict_set acc (fst kv) (snd kv)) l d.

Definition dict_of (l : list (K * V)) : list (K * V) := dict_update [] l.
End Dict.

Definition option_eqb {A : Type} (eqb : A -> A -> bool) (x y : option A) : bool :=
  match x, y with
  | Some a, Some b => eqb a b
  | None, None => true
  | _, _ => false
  end.

(** ** Python values *)

(** The classes the codec distinguishes; any other class is [Tother]
    with its name. *)
Inductive pytype : Type :=
| Tstr
| Tint
| Tfloat
| Tbool
| Tother (cls : string).

Definition pytype_eqb (a b : pytype) : bool :=
  match a, b with
  | Tstr, Tstr | Tint, Tint | Tfloat, Tfloat | Tbool, Tbool => true
  | Tother x, Tother y => String.eqb x y
  | _, _ => false
  end.

(** The interpreter's builtins the codec calls and does not define. *)
Class Builtins : Type := {
  float : Type;
  float_str : float -> string;              (* str(x) for a float *)
  py_float : string -> option float;        (* float(text), None: ValueError *)
  py_int : string -> option Z;              (* int(text), None: ValueError *)
  float_eqb : float -> float -> bool;       (* x == y on floats *)
  float_eq_int : float -> Z -> bool         (* x == n, float against int *)
}.

Inductive pyval {B : Builtins} : Type :=
| VStr (s : string)
| VInt (z : Z)
| VFloat (f : float)
| VBool (b : bool)
| VNone
| VOther (cls : string) (repr : string).   (* an object of another class *)

Section Values.
Context {B : Builtins}.

Definition type_of (v : pyval) : pytype :=
  match v with
  | VStr _ => Tstr
  | VInt _ => Tint
  | VFloat _ => Tfloat
  | VBool _ => Tbool
  | VNone => Tother "NoneType"
  | VOther cls _ => Tother cls
  end.

Definition str_int (z : Z) : string := NilZero.string_of_int (Z.to_int z).

(** [networkx.utils.make_str]: on Python 3, [str(x)]. *)
Definition make_str (v : pyval) : string :=
  match v with
  | VStr s => s
  | VInt z => str_int z
  | VFloat f => float_str f
  | VBool true => "True"
  | VBool false => "False"
  | VNone => "None"
  | VOther _ r => r
  end.

Definition bool_int (b : bool) : Z := if b then 1%Z else 0%Z.

(** Python's [==] on these values (what dict lookup uses). *)
Definition py_eqb (a b : pyval) : bool :=
  match a, b with
  | VStr x, VStr y => String.eqb x y
  | VInt x, VInt y => Z.eqb x y
  | VBool x, VBool y => Bool.eqb x y
  | VInt x, VBool y | VBool y, VInt x => Z.eqb x (bool_int y)
  | VFloat x, VFloat y => float_eqb x y
  | VFloat x, VInt y | VInt y, VFloat x => float_eq_int x y
  | VFloat x, VBool y | VBool y, VFloat x => float_eq_int x (bool_int y)
  | VNone, VNone => true
  | VOther c r, VOther c' r' => String.eqb c c' && String.eqb r r'
  | _, _ => false
  end.

(** An attribute bag: a dict from attribute names to values. *)
Definition attrs : Type := list (string * pyval).

(** A value of [G.graph]: a scalar, or a dict as [node_default] and
    [edge_default] hold. *)
Inductive gval : Type :=
| GVal (v : pyval)
| GDict (d : attrs).

Definition gtype_of (g : gval) : pytype :=
  match g with
  | GVal v => type_of v
  | GDict _ => Tother "dict"
  end.
End Values.

(** ** Text helpers *)

Definition lower_ascii (c : ascii) : ascii :=
  let n := nat_of_ascii c in
  if Nat.leb 65 n && Nat.leb n 90 then ascii_of_nat (n + 32) else c.

Fixpoint lower (s : string) : string :=
  match s with
  | EmptyString => EmptyString
  | String c s' => String (lower_ascii c) (lower s')
  end.

(** ["d%i" % n] *)
Definition key_id (n : nat) : string := "d" ++ NilZero.string_of_uint (Nat.to_uint n).

(** ** XML element trees (xml.etree.ElementTree.Element) *)

Inductive element : Type :=
| Element (tag : string) (attrib : list (string * string))
          (text : option string) (children : list element).

Definition tag (e : element) : string := let 'Element t _ _ _ := e in t.
Definition attrib (e : element) := let 'Element _ a _ _ := e in a.
Definition text (e : element) : option string := let 'Element _ _ x _ := e in x.
Definition children (e : element) : list element := let 'Element _ _ _ c := e in c.

(** [e.get(name)] *)
Definition get (e : element) (name : string) : option string :=
  dict_get String.eqb (attrib e) name.

(** [e.findall(tag)] and [e.find(tag)] over the direct children. *)
Definition findall (e : element) (t : string) : list element :=
  filter (fun c => String.eqb (tag c) t) (children e).

Definition find (e : element) (t : string) : option element :=
  hd_error (findall e t).

(** [e.find("a/b")]: the first [b] child of an [a] child. *)
Definition find2 (e : element) (a b : string) : option element :=
  hd_error (flat_map (fun c => findall c b) (findall e a)).

(** ** class GraphML *)

Module GraphML.
Definition NS_GRAPHML : string := "http://graphml.graphdrawing.org/xmlns".
Definition NS_XSI : string := "http://www.w3.org/2001/XMLSchema-instance".
Definition NS_Y : string := "http://www.yworks.com/xml/graphml".
Definition SCHEMALOCATION : string :=
  "http://graphml.graphdrawing.org/xmlns" ++ " " ++
  "http://graphml.graphdrawing.org/xmlns/1.0/graphml.xsd".

(** ["{%s}name" % ns] *)
Definition qname (ns name : string) : string := "{" ++ ns ++ "}" ++ name.

Definition unicode : pytype := Tstr.
Definition long : pytype := Tint.

Definition types : list (pytype * string) :=
  [ (Tint, "integer");
    (Tstr, "yfiles"); (Tstr, "string"); (unicode, "string");
    (Tint, "int"); (long, "long");
    (Tfloat, "float"); (Tfloat, "double");
    (Tbool, "boolean") ].

Definition xml_type : list (pytype * string) := dict_of pytype_eqb types.

Definition python_type : list (string * pytype) :=
  dict_of String.eqb (map (fun a => (snd a, fst a)) types).

(** The entries with text keys; the integer keys [0] and [1] are never
    looked up, as the lookup is by [text.lower()]. *)
Definition convert_bool : list (string * bool) :=
  [ ("true", true); ("false", false); ("0", false); ("1", true) ].
End GraphML.

(** ** The host graph type

    Modelled from the spec: the graph classes of networkx
    (networkx/classes: Graph, DiGraph, MultiGraph, MultiDiGraph) and
    [networkx.set_edge_attributes] are not among the sources.  Section 3 of
    the specification describes the graph as nodes, edges between node
    identifiers that carry a multiplicity key in a multigraph, a directedness
    flag and three attribute bags; nodes and edges are kept here in insertion
    order. *)

Module nx.
Section HostGraph.
Context {B : Builtins}.

Record edge : Type := Edge {
  src : pyval;
  dst : pyval;
  ekey : option pyval;       (* the multiplicity key; None in a simple graph *)
  edata : attrs
}.

Record nxgraph : Type := NxGraph {
  is_directed : bool;
  is_multigraph : bool;
  graph : list (string * gval);      (* G.graph *)
  nodes : list (pyval * attrs);      (* G.nodes(data=True) *)
  edges : list edge                  (* G.edges(keys=True, data=True) *)
}.

Definition set_graph (G : nxgraph) (g : list (string * gval)) : nxgraph :=
  NxGraph (is_directed G) (is_multigraph G) g (nodes G) (edges G).
Definition set_nodes (G : nxgraph) (n : list (pyval * attrs)) : nxgraph :=
  NxGraph (is_directed G) (is_multigraph G) (graph G) n (edges G).
Definition set_edges (G : nxgraph) (e : list edge) : nxgraph :=
  NxGraph (is_directed G) (is_multigraph G) (graph G) (nodes G) e.

Definition empty_graph (directed multi : bool) : nxgraph :=
  NxGraph directed multi [] [] [].

(** Whether an edge joins [u] and [v], in either orientation when the graph
    is undirected. *)
Definition joins (directed : bool) (u v : pyval) (e : edge) : bool :=
  (py_eqb (src e) u && py_eqb (dst e) v)
  || (negb directed && py_eqb (src e) v && py_eqb (dst e) u).

(** [G.has_edge(u, v)] *)
Definition has_edge (G : nxgraph) (u v : pyval) : bool :=
  existsb (joins (is_directed G) u v) (edges G).

(** [G.add_node(n, **data)] *)
Definition add_node (G : nxgraph) (n : pyval) (data : attrs) : nxgraph :=
  match dict_get py_eqb (nodes G) n with
  | Some old => set_nodes G (dict_set py_eqb (nodes G) n (dict_update String.eqb old data))
  | None => set_nodes G (nodes G ++ [(n, data)])
  end.

Definition has_key (directed : bool) (u v : pyval) (k : pyval) (e : edge) : bool :=
  joins directed u v e && option_eqb py_eqb (ekey e) (Some k).

(** The keys in use between [u] and [v] ([G.adj[u][v]]). *)
Definition keydict (G : nxgraph) (u v : pyval) : list edge :=
  filter (joins (is_directed G) u v) (edges G).

(** [key = len(keydict); while key in keydict: key += 1]; the loop ends
    within [len(keydict) + 1] rounds. *)
Fixpoint first_free (G : nxgraph) (u v : pyval) (fuel : nat) (k : Z) : Z :=
  match fuel with
  | O => k
  | S fuel' =>
      if existsb (has_key (is_directed G) u v (VInt k)) (edges G)
      then first_free G u v fuel' (k + 1)%Z
      else k
  end.

Definition new_edge_key (G : nxgraph) (u v : pyval) : pyval :=
  let n := List.length (keydict G u v) in
  VInt (first_free G u v (S n) (Z.of_nat n)).

(** The end nodes an edge brings into the graph. *)
Definition add_edges_from_nodes (G : nxgraph) (u v : pyval) : nxgraph :=
  let G1 := if dict_mem py_eqb (nodes G) u then G else set_nodes G (nodes G ++ [(u, [])]) in
  if dict_mem py_eqb (nodes G1) v then G1 else set_nodes G1 (nodes G1 ++ [(v, [])]).

(** [G.add_edges_from([(u, v, key, data)])] on a multigraph; [key = None]
    asks for a new key. *)
Definition add_edges_from (G : nxgraph) (u v : pyval) (key : option pyval)
           (data : attrs) : nxgraph :=
  let G2 := add_edges_from_nodes G u v in
  let k := match key with Some k => k | None => new_edge_key G2 u v end in
  if existsb (has_key (is_directed G2) u v k) (edges G2)
  then set_edges G2
         (map (fun e => if has_key (is_directed G2) u v k e
                        then Edge (src e) (dst e) (ekey e)
                                  (dict_update String.eqb (edata e) data)
                        else e) (edges G2))
  else set_edges G2 (edges G2 ++ [Edge u v (Some k) data]).

(** [nx.Graph(G)] / [nx.DiGraph(G)] of a multigraph: the edges lose their
    keys; parallel edges collapse onto the first one, the data of the later
    ones updating it. *)
Fixpoint collapse (directed : bool) (es : list edge) (acc : list edge) : list edge :=
  match es with
  | [] => acc
  | e :: es' =>
      collapse directed es'
        (if existsb (joins directed (src e) (dst e)) acc
         then map (fun a => if joins directed (src e) (dst e) a
                            then Edge (src a) (dst a) None
                                      (dict_update String.eqb (edata a) (edata e))
                            else a) acc
         else acc ++ [Edge (src e) (dst e) None (edata e)])
  end.

Definition to_simple (G : nxgraph) : nxgraph :=
  NxGraph (is_directed G) false (graph G) (nodes G)
          (collapse (is_directed G) (edges G) []).

(** [nx.set_edge_attributes(G, values, name)] on a simple graph, [values] a
    dict from node pairs to values; a pair that is no edge is skipped. *)
Definition set_edge_attributes (G : nxgraph)
           (values : list ((pyval * pyval) * pyval)) (name : string) : nxgraph :=
  fold_left
    (fun G' '((u, v), value) =>
       set_edges G'
         (map (fun e => if joins (is_directed G') u v e
                        then Edge (src e) (dst e) (ekey e)
                                  (dict_set String.eqb (edata e) name value)
                        else e) (edges G')))
    values G.
End HostGraph.
End nx.
Import nx.

(** ** class GraphMLReader *)

Module GraphMLReader.
Import GraphML.
Section Reader.
Context {B : Builtins}.

(** The two converters the reader is configured with; [Raise] is the
    exception the converter ends with. *)
Variable node_type : option string -> result pyval.
Variable edge_key_type : string -> result pyval.

(** An entry of [graphml_keys]. *)
Record key_info : Type := KeyInfo {
  k_name : string;
  k_type : pytype;
  k_for : option string
}.

Definition key_table : Type := list (option string * key_info).
Definition default_table : Type := list (option string * option string).

(** The fields of the reader object, and the warnings it has issued. *)
Record state : Type := State {
  multigraph : bool;
  edge_ids : list ((pyval * pyval) * string);
  warnings : list string
}.

Definition init : state := State false [] [].

Definition warn (st : state) (msg : string) : state :=
  State (multigraph st) (edge_ids st) (warnings st ++ [msg]).

Definition pair_eqb (a b : pyval * pyval) : bool :=
  py_eqb (fst a) (fst b) && py_eqb (snd a) (snd b).

Definition opt_str (x : option string) : pyval :=
  match x with Some s => VStr s | None => VNone end.

(** [python_type(value)] for a class of the type table; [value] is [None]
    where an element has no text. *)
Definition construct (t : pytype) (x : option string) : result pyval :=
  match t, x with
  | Tstr, Some s => Ok (VStr s)
  | Tstr, None => Ok (VStr "None")
  | Tint, Some s =>
      match py_int s with Some z => Ok (VInt z) | None => Raise ValueError end
  | Tfloat, Some s =>
      match py_float s with Some f => Ok (VFloat f) | None => Raise ValueError end
  | Tbool, Some s => Ok (VBool (negb (String.eqb s "")))
  | Tbool, None => Ok (VBool false)
  | _, _ => Raise TypeError
  end.

(** The branch of [decode_data_elements] for a data element with
    sub-elements (the yfiles extension). *)
Definition decode_yfiles (data : attrs) (d : element) : attrs :=
  let '(data1, node_label) :=
    fold_left
      (fun '(data, node_label) node_type =>
         let data' :=
           match find2 d (qname NS_Y node_type) (qname NS_Y "Geometry") with
           | Some geometry =>
               dict_set String.eqb
                 (dict_set String.eqb data "x" (opt_str (get geometry "x")))
                 "y" (opt_str (get geometry "y"))
           | None => data
           end in
         let node_label' :=
           match node_label with
           | None => find2 d (qname NS_Y node_type) (qname NS_Y "NodeLabel")
           | Some _ => node_label
           end in
         (data', node_label'))
      ["ShapeNode"; "SVGNode"; "ImageNode"] (data, None) in
  let data2 :=
    match node_label with
    | Some l => dict_set String.eqb data1 "label" (opt_str (text l))
    | None => data1
    end in
  let edge_label :=
    fold_left
      (fun found e =>
         match found with
         | Some _ => found
         | None => find2 d (qname NS_Y e) (qname NS_Y "EdgeLabel")
         end)
      ["PolyLineEdge"; "SplineEdge"; "QuadCurveEdge"; "BezierEdge"; "ArcEdge"]
      None in
  match edge_label with
  | Some l => dict_set String.eqb data2 "label" (opt_str (text l))
  | None => data2
  end.

(** One round of the loop of [decode_data_elements]. *)
Definition decode_data_element (graphml_keys : key_table) (data : attrs)
           (data_element : element) : result attrs :=
  let key := get data_element "key" in
  match dict_get (option_eqb String.eqb) graphml_keys key with
  | None => Raise (NetworkXError "Bad GraphML data: no key")
  | Some info =>
      let data_name := k_name info in
      let data_type := k_type info in
      match text data_element, children data_element with
      | Some t, [] =>
          if pytype_eqb data_type Tbool then
            match dict_get String.eqb convert_bool (lower t) with
            | Some b => Ok (dict_set String.eqb data data_name (VBool b))
            | None => Raise KeyError
            end
          else
            v <- construct data_type (Some t) ;;
            Ok (dict_set String.eqb data data_name v)
      | None, [] => Ok data
      | _, _ :: _ => Ok (decode_yfiles data data_element)
      end
  end.

Definition decode_data_elements (graphml_keys : key_table) (obj_xml : element)
  : result attrs :=
  for_each (decode_data_element graphml_keys)
           (findall obj_xml (qname NS_GRAPHML "data")) [].

(** One round of the loop of [find_graphml_keys]; the third component
    collects the warnings. *)
Definition find_graphml_key
           (acc : key_table * default_table * list string) (k : element)
  : result (key_table * default_table * list string) :=
  let '(graphml_keys, graphml_key_defaults, ws) := acc in
  let attr_id := get k "id" in
  let attr_type := get k "attr.type" in
  let attr_name := get k "attr.name" in
  let yfiles_type := get k "yfiles.type" in
  let '(attr_name, attr_type) :=
    match yfiles_type with
    | Some y => (Some y, Some "yfiles")
    | None => (attr_name, attr_type)
    end in
  let '(attr_type, ws) :=
    match attr_type with
    | Some t => (t, ws)
    | None => ("string", ws ++ ["No key type for id. Using string"])
    end in
  match attr_name with
  | None => Raise (NetworkXError "Unknown key for id.")
  | Some attr_name =>
      match dict_get String.eqb python_type attr_type with
      | None => Raise KeyError
      | Some ty =>
          let graphml_keys :=
            dict_set (option_eqb String.eqb) graphml_keys attr_id
                     (KeyInfo attr_name ty (get k "for")) in
          let graphml_key_defaults :=
            match find k (qname NS_GRAPHML "default") with
            | Some default =>
                dict_set (option_eqb String.eqb) graphml_key_defaults attr_id
                         (text default)
            | None => graphml_key_defaults
            end in
          Ok (graphml_keys, graphml_key_defaults, ws)
      end
  end.

Definition find_graphml_keys (graph_element : element)
  : result (key_table * default_table * list string) :=
  for_each find_graphml_key
           (findall graph_element (qname NS_GRAPHML "key")) ([], [], []).

(** [add_node] *)
Definition add_node (st : state) (G : nxgraph) (node_xml : element)
           (graphml_keys : key_table) : result (nxgraph * state) :=
  let st :=
    match find node_xml (qname NS_GRAPHML "port") with
    | Some _ => warn st "GraphML port tag not supported."
    | None => st
    end in
  node_id <- node_type (get node_xml "id") ;;
  data <- decode_data_elements graphml_keys node_xml ;;
  Ok (nx.add_node G node_id data, st).

(** The key [add_edge] gives the edge (its [edge_id] after the [if]):
    [None] asks the graph for a new key. *)
Definition edge_key (edge_id : option string) (data : attrs)
  : result (option pyval) :=
  match edge_id with
  | Some (String c s as id) =>
      match edge_key_type id with
      | Ok k => Ok (Some k)
      | Raise ValueError => Ok (Some (VStr id))
      | Raise e => Raise e
      end
  | _ =>
      match dict_get String.eqb data "key" with
      | Some VNone => Ok None
      | r => Ok r
      end
  end.

(** [add_edge] *)
Definition add_edge (st : state) (G : nxgraph) (edge_element : element)
           (graphml_keys : key_table) : result (nxgraph * state) :=
  let st :=
    match find edge_element (qname NS_GRAPHML "port") with
    | Some _ => warn st "GraphML port tag not supported."
    | None => st
    end in
  let directed := get edge_element "directed" in
  if is_directed G && option_eqb String.eqb directed (Some "false") then
    Raise (NetworkXError "directed=false edge found in directed graph.")
  else if negb (is_directed G) && option_eqb String.eqb directed (Some "true") then
    Raise (NetworkXError "directed=true edge found in undirected graph.")
  else
    source <- node_type (get edge_element "source") ;;
    target <- node_type (get edge_element "target") ;;
    data <- decode_data_elements graphml_keys edge_element ;;
    let edge_id := get edge_element "id" in
    let st :=
      match edge_id with
      | Some (String c s as id) =>
          State (multigraph st)
                (dict_set pair_eqb (edge_ids st) (source, target) id)
                (warnings st)
      | _ => st
      end in
    key <- edge_key edge_id data ;;
    let st :=
      if has_edge G source target
      then State true (edge_ids st) (warnings st)
      else st in
    Ok (add_edges_from G source target key data, st).

(** The loop of [make_graph] over [defaults.items()]. *)
Definition add_default (graphml_keys : key_table) (G : nxgraph)
           (kv : option string * option string) : result nxgraph :=
  let '(key_id, value) := kv in
  match dict_get (option_eqb String.eqb) graphml_keys key_id with
  | None => Raise KeyError
  | Some info =>
      let upd (bag : string) (G : nxgraph) : result nxgraph :=
        v <- construct (k_type info) value ;;
        match dict_get String.eqb (graph G) bag with
        | Some (GDict d) =>
            Ok (set_graph G (dict_set String.eqb (graph G) bag
                               (GDict (dict_set String.eqb d (k_name info) v))))
        | _ => Raise AttributeError
        end in
      G <- (if option_eqb String.eqb (k_for info) (Some "node")
            then upd "node_default" G else Ok G) ;;
      if option_eqb String.eqb (k_for info) (Some "edge")
      then upd "edge_default" G else Ok G
  end.

(** [make_graph] *)
Definition make_graph (st : state) (graph_xml : element)
           (graphml_keys : key_table) (defaults : default_table)
  : result (nxgraph * state) :=
  let edgedefault := get graph_xml "edgedefault" in
  let G := empty_graph (option_eqb String.eqb edgedefault (Some "directed")) true in
  let G := set_graph G (dict_set String.eqb (graph G) "node_default" (GDict [])) in
  let G := set_graph G (dict_set String.eqb (graph G) "edge_default" (GDict [])) in
  G <- for_each (add_default graphml_keys) defaults G ;;
  match find graph_xml (qname NS_GRAPHML "hyperedge") with
  | Some _ => Raise (NetworkXError "GraphML reader doesn't support hyperedges")
  | None =>
      '(G, st) <- for_each (fun '(G, st) node_xml => add_node st G node_xml graphml_keys)
                           (findall graph_xml (qname NS_GRAPHML "node")) (G, st) ;;
      '(G, st) <- for_each (fun '(G, st) edge_xml => add_edge st G edge_xml graphml_keys)
                           (findall graph_xml (qname NS_GRAPHML "edge")) (G, st) ;;
      data <- decode_data_elements graphml_keys graph_xml ;;
      let G := set_graph G (dict_update String.eqb (graph G)
                              (map (fun '(k, v) => (k, GVal v)) data)) in
      if negb (multigraph st) then
        let G := to_simple G in
        Ok (set_edge_attributes G
              (map (fun '(uv, id) => (uv, VStr id)) (edge_ids st)) "id", st)
      else Ok (G, st)
  end.

(** [__call__], with its generator run to the end ([list(reader(...))]);
    [xml] is the tree the XML layer parsed. *)
Definition call (st : state) (xml : element) : result (list nxgraph * state) :=
  '(keys, defaults, ws) <- find_graphml_keys xml ;;
  let st := State (multigraph st) (edge_ids st) (warnings st ++ ws) in
  for_each (fun '(glist, st) g =>
              '(G, st) <- make_graph st g keys defaults ;;
              Ok (glist ++ [G], st))
           (findall xml (qname NS_GRAPHML "graph")) ([], st).
End Reader.

(** [str] and [int] as converters, the defaults of [node_type] and
  [edge_key_type]. *)
Definition py_str {B : Builtins} (x : option string) : result pyval :=
Ok (VStr (match x with Some s => s | None => "None" end)).

Definition py_int_conv {B : Builtins} (s : string) : result pyval :=
match py_int s with Some z => Ok (VInt z) | None => Raise ValueError end.

(** [parse_graphml] on a document the XML layer parsed with its namespace;
  the retry on a bare [<graphml>] root rewrites the text before it is
  parsed and is not part of the tree model. *)
Definition parse_graphml {B : Builtins} (node_type : option string -> result pyval)
         (xml : element) : result nxgraph :=
'(glist, _) <- call node_type py_int_conv init xml ;;
match glist with
| [] => Raise (NetworkXError "file not successfully read as graphml")
| G :: _ => Ok G
end.
End GraphMLReader.

(** ** Elements under construction

    The writer builds elements whose XML attribute values are the objects it
    was given (the graph id is passed as it is); text is always made with
    [make_str]. *)

Inductive welement {B : Builtins} : Type :=
| WElement (wtag : string) (wattrib : list (string * pyval))
           (wtext : option string) (wchildren : list welement).

Section WElements.
Context {B : Builtins}.

Definition wtag (e : welement) : string := let 'WElement t _ _ _ := e in t.
Definition wattrib (e : welement) := let 'WElement _ a _ _ := e in a.
Definition wtext (e : welement) : option string := let 'WElement _ _ x _ := e in x.
Definition wchildren (e : welement) : list welement := let 'WElement _ _ _ c := e in c.

(** [e.append(c)] for each [c] of [cs] *)
Definition wextend (e : welement) (cs : list welement) : welement :=
  WElement (wtag e) (wattrib e) (wtext e) (wchildren e ++ cs).

Definition join (sep : string) (l : list string) : string :=
  match l with
  | [] => ""
  | x :: l' => fold_left (fun acc y => (acc ++ sep ++ y)%string) l' x
  end.

(** [str(d)] of a dict of attributes, for names and texts that need no
    escape. *)
Definition dict_str (d : attrs) : string :=
  ("{" ++ join ", "
            (map (fun '(k, v) =>
                    "'" ++ k ++ "': " ++
                    match v with
                    | VStr x => "'" ++ x ++ "'"
                    | _ => make_str v
                    end) d) ++ "}")%string.

(** A value of [G.graph] as an object. *)
Definition as_obj (g : gval) : pyval :=
  match g with
  | GVal v => v
  | GDict d => VOther "dict" (dict_str d)
  end.
End WElements.

(** ** class GraphMLWriter *)

Module GraphMLWriter.
Import GraphML.
Section Writer.
Context {B : Builtins}.

(** The key of [self.keys]: (name, attr_type, scope). *)
Definition keys_key : Type := (string * string * string)%type.

Definition keys_key_eqb (a b : keys_key) : bool :=
  let '(n, t, s) := a in
  let '(n', t', s') := b in
  String.eqb n n' && String.eqb t t' && String.eqb s s'.

Definition name_scope_eqb (a b : string * string) : bool :=
  String.eqb (fst a) (fst b) && String.eqb (snd a) (snd b).

(** The fields of the writer object; [xml] holds the children of the root
    element. *)
Record writer : Type := Writer {
  infer_numeric_types : bool;
  xml : list welement;
  keys : list (keys_key * string);
  attribute_types : list ((string * string) * list pytype)
}.

Definition init (infer : bool) : writer := Writer infer [] [] [].

(** [s.add(t)] on a set kept as a list without repetition. *)
Definition set_add (s : list pytype) (t : pytype) : list pytype :=
  if existsb (pytype_eqb t) s then s else s ++ [t].

Definition set_in (t : pytype) (s : list pytype) : bool := existsb (pytype_eqb t) s.

(** [self.attribute_types[(name, scope)]] of the defaultdict *)
Definition types_of (w : writer) (name scope : string) : list pytype :=
  match dict_get name_scope_eqb (attribute_types w) (name, scope) with
  | Some s => s
  | None => []
  end.

(** [self.attribute_types[(name, scope)].add(t)] *)
Definition observe (w : writer) (name scope : string) (t : pytype) : writer :=
  Writer (infer_numeric_types w) (xml w) (keys w)
         (dict_set name_scope_eqb (attribute_types w) (name, scope)
                   (set_add (types_of w name scope) t)).

(** [attr_type] *)
Definition attr_type (w : writer) (name scope : string) (value : pyval)
  : result pytype :=
  if infer_numeric_types w then
    let types := types_of w name scope in
    let local_long := Tint in
    let local_unicode := Tstr in
    if Nat.ltb 1 (List.length types) then
      if set_in Tstr types then Ok Tstr
      else if set_in local_unicode types then Ok local_unicode
      else if set_in Tfloat types then Ok Tfloat
      else if set_in local_long types then Ok local_long
      else Ok Tint
    else
      match types with
      | t :: _ => Ok t
      | [] => Raise IndexError
      end
  else Ok (type_of value).

(** [default is not None] *)
Definition not_none (default : option pyval) : option pyval :=
  match default with
  | Some VNone => None
  | d => d
  end.

Definition key_element (new_id scope name attr_type : string)
           (default : option pyval) : welement :=
  WElement "key"
           [("id", VStr new_id); ("for", VStr scope);
            ("attr.name", VStr name); ("attr.type", VStr attr_type)]
           None
           match not_none default with
           | Some d => [WElement "default" [] (Some (make_str d)) []]
           | None => []
           end.

(** [get_key] *)
Definition get_key (w : writer) (name attr_type scope : string)
           (default : option pyval) : string * writer :=
  let keys_key := (name, attr_type, scope) in
  match dict_get keys_key_eqb (keys w) keys_key with
  | Some id => (id, w)
  | None =>
      let new_id := key_id (List.length (keys w)) in
      (new_id,
       Writer (infer_numeric_types w)
              (key_element new_id scope name attr_type default :: xml w)
              (dict_set keys_key_eqb (keys w) keys_key new_id)
              (attribute_types w))
  end.

(** [add_data]; [value] is the text [make_str] made. *)
Definition add_data (w : writer) (name : string) (element_type : pytype)
           (value : string) (scope : string) (default : option pyval)
  : result (welement * writer) :=
  match dict_get pytype_eqb xml_type element_type with
  | None => Raise (NetworkXError "GraphML writer does not support this as data values.")
  | Some t =>
      let '(keyid, w) := get_key w name t scope default in
      Ok (WElement "data" [("key", VStr keyid)] (Some value) [], w)
  end.

(** The elements a graph element is made of, named within one call of
    [add_graph_element]. *)
Inductive obj : Type :=
| OGraph
| ONode (i : nat)
| OEdge (i : nat).

Definition obj_eqb (a b : obj) : bool :=
  match a, b with
  | OGraph, OGraph => true
  | ONode i, ONode j | OEdge i, OEdge j => Nat.eqb i j
  | _, _ => false
  end.

(** An entry [[k, v, scope, default]] of [self.attributes[xml_obj]]. *)
Record pending : Type := Pending {
  p_name : string;
  p_value : pyval;
  p_scope : string;
  p_default : option pyval
}.

(** [d[k].append(x)] on a [defaultdict(list)] *)
Definition dd_append {X : Type} (d : list (obj * list X)) (k : obj) (x : X)
  : list (obj * list X) :=
  match dict_get obj_eqb d k with
  | Some l => dict_set obj_eqb d k (l ++ [x])
  | None => d ++ [(k, [x])]
  end.

(** [G.graph.get('node_default', {})] followed by [default.get(k)] *)
Definition default_get (default : option gval) (k : string)
  : result (option pyval) :=
  match default with
  | None => Ok None
  | Some (GDict d) => Ok (dict_get String.eqb d k)
  | Some (GVal _) => Raise AttributeError
  end.

Definition attributes_t : Type := list (obj * list pending).

(** [add_attributes] *)
Definition add_attributes (scope : string) (xml_obj : obj) (data : attrs)
           (default : option gval) (st : writer * attributes_t)
  : result (writer * attributes_t) :=
  for_each
    (fun '(w, attributes) '(k, v) =>
       let w := observe w k scope (type_of v) in
       d <- default_get default k ;;
       Ok (w, dd_append attributes xml_obj (Pending k v scope d)))
    data st.

Definition enumerate {X : Type} (l : list X) : list (nat * X) :=
  combine (seq 0 (List.length l)) l.

(** The state of one call of [add_graph_element]: the writer, the table
    [self.attributes] and the children appended to the graph element. *)
Definition build : Type := (writer * attributes_t * list (obj * welement))%type.

(** [add_nodes] *)
Definition add_nodes (G : nxgraph) (st : build) : result build :=
  let default := dict_get String.eqb (graph G) "node_default" in
  for_each
    (fun '(w, attributes, graph_element) '(i, (node, data)) =>
       let node_element := WElement "node" [("id", VStr (make_str node))] None [] in
       '(w, attributes) <- add_attributes "node" (ONode i) data default (w, attributes) ;;
       Ok (w, attributes, graph_element ++ [(ONode i, node_element)]))
    (enumerate (nodes G)) st.

Definition key_of (e : edge) : pyval :=
  match ekey e with Some k => k | None => VNone end.

(** [add_edges] *)
Definition add_edges (G : nxgraph) (st : build) : result build :=
  for_each
    (fun '(w, attributes, graph_element) '(i, e) =>
       let edge_element :=
         if is_multigraph G
         then WElement "edge" [("source", VStr (make_str (src e)));
                               ("target", VStr (make_str (dst e)));
                               ("id", VStr (make_str (key_of e)))] None []
         else WElement "edge" [("source", VStr (make_str (src e)));
                               ("target", VStr (make_str (dst e)))] None [] in
       let default := dict_get String.eqb (graph G) "edge_default" in
       '(w, attributes) <- add_attributes "edge" (OEdge i) (edata e) default (w, attributes) ;;
       Ok (w, attributes, graph_element ++ [(OEdge i, edge_element)]))
    (enumerate (edges G)) st.

Definition reserved (k : string) : bool :=
  String.eqb k "node_default" || String.eqb k "edge_default".

(** [G.graph.pop('id', None)]: the value, [None] also where the value is
    [None], and the graph without the entry. *)
Definition pop_id (G : nxgraph) : option pyval * nxgraph :=
  (match dict_get String.eqb (graph G) "id" with
   | Some g => not_none (Some (as_obj g))
   | None => None
   end,
   set_graph G (dict_del String.eqb (graph G) "id")).

Definition graph_attrib (G : nxgraph) (graphid : option pyval)
  : list (string * pyval) :=
  ("edgedefault", VStr (if is_directed G then "directed" else "undirected"))
    :: match graphid with
       | Some v => [("id", v)]
       | None => []
       end.

(** The graph attributes that are written as data. *)
Definition graph_data (G : nxgraph) : attrs :=
  map (fun '(k, v) => (k, as_obj v))
      (filter (fun '(k, _) => negb (reserved k)) (graph G)).

(** The loop at the end of [add_graph_element] over
    [self.attributes.items()]: the data elements appended to each
    element. *)
Definition add_pending (xml_obj : obj)
           (st : writer * list (obj * list welement)) (p : pending)
  : result (writer * list (obj * list welement)) :=
  let '(w, appended) := st in
  t <- attr_type w (p_name p) (p_scope p) (p_value p) ;;
  '(data_element, w) <- add_data w (p_name p) t (make_str (p_value p))
                                 (p_scope p) (p_default p) ;;
  Ok (w, dd_append appended xml_obj data_element).

Definition add_all_pending (attributes : attributes_t) (w : writer)
  : result (writer * list (obj * list welement)) :=
  for_each (fun st '(xml_obj, data) => for_each (add_pending xml_obj) data st)
           attributes (w, []).

Definition appended_to (appended : list (obj * list welement)) (o : obj)
  : list welement :=
  match dict_get obj_eqb appended o with
  | Some l => l
  | None => []
  end.

(** [add_graph_element], for the first graph of a writer: the table
    [self.attributes] starts empty.  The result is the writer and the graph
    as the call leaves it. *)
Definition add_graph_element (w : writer) (G : nxgraph)
  : result (writer * nxgraph) :=
  let '(graphid, G) := pop_id G in
  let attrib := graph_attrib G graphid in
  let data := graph_data G in
  '(w, attributes) <- add_attributes "graph" OGraph data (Some (GDict [])) (w, []) ;;
  st <- add_nodes G (w, attributes, []) ;;
  '(w, attributes, graph_children) <- add_edges G st ;;
  '(w, appended) <- add_all_pending attributes w ;;
  let graph_element :=
    WElement "graph" attrib None
             (map (fun '(o, e) => wextend e (appended_to appended o)) graph_children
                  ++ appended_to appended OGraph) in
  Ok (Writer (infer_numeric_types w) (xml w ++ [graph_element]) (keys w)
             (attribute_types w),
      G).

(** The root element with the children the writer holds. *)
Definition document (children : list welement) : welement :=
  WElement "graphml"
           [("xmlns", VStr NS_GRAPHML); ("xmlns:xsi", VStr NS_XSI);
            ("xsi:schemaLocation", VStr SCHEMALOCATION)]
           None children.

(** [GraphMLWriter(infer_numeric_types=infer)] followed by
    [add_graph_element(G)], as [write_graphml_xml] does before it dumps the
    tree: the document and the graph as the caller finds it. *)
Definition write_graphml_xml (infer : bool) (G : nxgraph)
  : result (welement * nxgraph) :=
  '(w, G) <- add_graph_element (init infer) G ;;
  Ok (document (xml w), G).
End Writer.
End GraphMLWriter.

(** ** class GraphMLWriterLxml *)

Module GraphMLWriterLxml.
Import GraphML.
Import GraphMLWriter.
Section Writer.
Context {B : Builtins}.

(** [self.xml_type[t]] *)
Definition xml_type_of (t : pytype) : result string :=
  match dict_get pytype_eqb xml_type t with
  | Some x => Ok x
  | None => Raise KeyError
  end.

(** [add_attributes], overridden: the data elements are made at once and
    appended to [xml_obj]. *)
Definition add_attributes (scope : string) (data : attrs)
           (default : option gval) (st : writer * list welement)
  : result (writer * list welement) :=
  for_each
    (fun '(w, xml_obj) '(k, v) =>
       t <- attr_type w k scope v ;;
       d <- default_get default k ;;
       '(data_element, w) <- GraphMLWriter.add_data w k t (make_str v) scope d ;;
       Ok (w, xml_obj ++ [data_element]))
    data st.

(** [add_nodes], inherited; it calls the [add_attributes] above.  The
    second component is what was written inside the graph element. *)
Definition add_nodes (G : nxgraph) (st : writer * list welement)
  : result (writer * list welement) :=
  let default := dict_get String.eqb (graph G) "node_default" in
  for_each
    (fun '(w, graph_element) '(node, data) =>
       '(w, ch) <- add_attributes "node" data default (w, []) ;;
       Ok (w, graph_element ++
                [WElement "node" [("id", VStr (make_str node))] None ch]))
    (nodes G) st.

(** [add_edges], inherited *)
Definition add_edges (G : nxgraph) (st : writer * list welement)
  : result (writer * list welement) :=
  for_each
    (fun '(w, graph_element) e =>
       let a :=
         if is_multigraph G
         then [("source", VStr (make_str (src e)));
               ("target", VStr (make_str (dst e)));
               ("id", VStr (make_str (key_of e)))]
         else [("source", VStr (make_str (src e)));
               ("target", VStr (make_str (dst e)))] in
       let default := dict_get String.eqb (graph G) "edge_default" in
       '(w, ch) <- add_attributes "edge" (edata e) default (w, []) ;;
       Ok (w, graph_element ++ [WElement "edge" a None ch]))
    (edges G) st.

(** The scan of the attributes of one scope: the types are recorded and the
    first value of each name is kept. *)
Definition scan (scope : string) (st : writer * attrs) (d : attrs)
  : writer * attrs :=
  fold_left
    (fun '(w, attributes) '(k, v) =>
       (observe w k scope (type_of v),
        if dict_mem String.eqb attributes k then attributes
        else dict_set String.eqb attributes k v))
    d st.

(** The keys of one scope, made from the first values. *)
Definition make_keys (scope : string) (default : option gval)
           (attributes : attrs) (w : writer) : result writer :=
  for_each
    (fun w '(k, v) =>
       t <- attr_type w k scope v ;;
       T <- xml_type_of t ;;
       d <- default_get default k ;;
       Ok (snd (get_key w k T scope d)))
    attributes w.

(** The loops of [add_graph_element] before anything is written. *)

(** Graph attributes: their types, then their keys. *)
Definition scan_graph (graphdata : attrs) (w : writer) : writer :=
  fold_left (fun w '(k, v) => observe w k "graph" (type_of v)) graphdata w.

Definition graph_keys (graphdata : attrs) (w : writer) : result writer :=
  for_each
    (fun w '(k, v) =>
       t <- attr_type w k "graph" v ;;
       element_type <- xml_type_of t ;;
       Ok (snd (get_key w k element_type "graph" None)))
    graphdata w.

(** Nodes and data *)
Definition scan_nodes (G : nxgraph) (w : writer) : writer * attrs :=
  fold_left (fun st '(node, d) => scan "node" st d) (nodes G) (w, []).

(** Edges and data; in a multigraph the edge key is scanned as an attribute
    named [key]. *)
Definition scan_edges (G : nxgraph) (w : writer) : writer * attrs :=
  if is_multigraph G then
    fold_left
      (fun '(w, attributes) e =>
         let w := observe w "key" "edge" (type_of (key_of e)) in
         let attributes :=
           if dict_mem String.eqb attributes "key" then attributes
           else dict_set String.eqb attributes "key" (key_of e) in
         scan "edge" (w, attributes) (edata e))
      (edges G) (w, [])
  else
    fold_left (fun st e => scan "edge" st (edata e)) (edges G) (w, []).

(** [add_graph_element]: the writer, the children of the root element that
    were written, and the graph as the call leaves it. *)
Definition add_graph_element (w : writer) (G : nxgraph)
  : result (writer * list welement * nxgraph) :=
  let '(graphid, G) := pop_id G in
  let attrib := graph_attrib G graphid in
  let graphdata := graph_data G in
  let node_default := dict_get String.eqb (graph G) "node_default" in
  let edge_default := dict_get String.eqb (graph G) "edge_default" in
  w <- graph_keys graphdata (scan_graph graphdata w) ;;
  let '(w, attributes) := scan_nodes G w in
  w <- make_keys "node" node_default attributes w ;;
  let '(w, attributes) := scan_edges G w in
  w <- make_keys "edge" edge_default attributes w ;;
  (* Now add attribute keys to the xml file *)
  let written := xml w in
  '(w, ch) <- add_attributes "graph" graphdata (Some (GDict [])) (w, []) ;;
  st <- add_nodes G (w, ch) ;;
  '(w, ch) <- add_edges G st ;;
  Ok (w, written ++ [WElement "graph" attrib None ch], G).

(** [GraphMLWriterLxml(path, graph=G, infer_numeric_types=infer)] and
    [dump()], as [write_graphml_lxml] does. *)
Definition write_graphml_lxml (infer : bool) (G : nxgraph)
  : result (welement * nxgraph) :=
  '(_, written, G) <- add_graph_element (init infer) G ;;
  Ok (document written, G).
End Writer.
End GraphMLWriterLxml.

(** ** The XML layer

    Modelled from the spec: the XML library is an external collaborator
    (section 6: an XML parse-to-tree primitive and a write primitive, assumed
    correct).  [reparse] is the tree the parser gives back for the document
    the writer serialized: an attribute value that is no text cannot be
    serialized; the names are in the default namespace the root declares; the
    namespace declarations are no attributes of the parsed root; an empty
    text is read back as no text. *)

Section XmlLayer.
Context {B : Builtins}.
Import GraphML.

Definition reparse_attr (acc : list (string * string)) (kv : string * pyval)
  : result (list (string * string)) :=
  match kv with
  | (k, VStr s) =>
      if String.eqb k "xmlns" || String.eqb k "xmlns:xsi" then Ok acc
      else if String.eqb k "xsi:schemaLocation"
           then Ok (acc ++ [(qname NS_XSI "schemaLocation", s)])
           else Ok (acc ++ [(k, s)])
  | _ => Raise TypeError
  end.

Definition reparse_text (x : option string) : option string :=
  match x with
  | Some EmptyString => None
  | _ => x
  end.

Fixpoint reparse (e : welement) : result element :=
  match e with
  | WElement t a x c =>
      a' <- for_each reparse_attr a [] ;;
      c' <- (fix go (l : list welement) : result (list element) :=
               match l with
               | [] => Ok []
               | h :: tl => h' <- reparse h ;; tl' <- go tl ;; Ok (h' :: tl')
               end) c ;;
      Ok (Element (qname NS_GRAPHML t) a' (reparse_text x) c')
  end.

Fixpoint reparse_all (l : list welement) : result (list element) :=
  match l with
  | [] => Ok []
  | h :: tl => h' <- reparse h ;; tl' <- reparse_all tl ;; Ok (h' :: tl')
  end.
End XmlLayer.

(** ** Encoding and decoding a graph *)

Section Codec.
Context {B : Builtins}.

(** [write_graphml_xml] followed by [parse_graphml] on what was written. *)
Definition roundtrip_xml (infer : bool) (G : nxgraph) : result nxgraph :=
  '(doc, _) <- GraphMLWriter.write_graphml_xml infer G ;;
  tree <- reparse doc ;;
  GraphMLReader.parse_graphml GraphMLReader.py_str tree.
End Codec.

(** An instance of the builtins to run examples with: a float is kept as the
    decimal literal that denotes it, and [int(text)] reads an optional sign
    and decimal digits. *)
Definition is_digit (c : ascii) : bool :=
  let n := nat_of_ascii c in Nat.leb 48 n && Nat.leb n 57.

Fixpoint all_digits_dot (s : string) (dots : nat) : bool :=
  match s with
  | EmptyString => true
  | String c s' =>
      if is_digit c then all_digits_dot s' dots
      else if Ascii.eqb c "." then
             match dots with O => false | S d => all_digits_dot s' d end
           else false
  end.

Definition literal_float (s : string) : option string :=
  match s with
  | EmptyString => None
  | String c s' =>
      let body := if Ascii.eqb c "-" then s' else s in
      match body with
      | EmptyString => None
      | _ => if all_digits_dot body 1 then Some s else None
      end
  end.

Definition literal_int (s : string) : option Z :=
  match s with
  | EmptyString => None
  | String c s' =>
      let body := if Ascii.eqb c "-" then s' else s in
      match body with
      | EmptyString => None
      | _ => if all_digits_dot body 0
             then option_map Z.of_int (NilZero.int_of_string s) else None
      end
  end.

Definition literal_builtins : Builtins := {|
  float := string;
  float_str := fun f => f;
  py_float := literal_float;
  py_int := literal_int;
  float_eqb := String.eqb;
  float_eq_int := fun f z => String.eqb f (NilZero.string_of_int (Z.to_int z))
|}.

(** ** Example documents *)

Module Examples.
Import GraphML.
#[local] Existing Instance literal_builtins.

Definition ns (t : string) : string := qname NS_GRAPHML t.

Definition key_decl (id for_ name type : string) : element :=
  Element (ns "key")
          [("id", id); ("for", for_); ("attr.name", name); ("attr.type", type)]
          None [].

Definition data (key txt : string) : element :=
  Element (ns "data") [("key", key)] (Some txt) [].

Definition node (id : string) (ds : list element) : element :=
  Element (ns "node") [("id", id)] None ds.

Definition graphml (children : list element) : element :=
  Element (ns "graphml") [] None children.

(** A node with one boolean attribute of the given text. *)
Definition flag_document (txt : string) : element :=
  graphml
    [ key_decl "k" "node" "flag" "boolean";
      Element (ns "graph") [("edgedefault", "undirected")] None
              [ node "n0" [data "k" txt] ] ].

Definition flag_keys : GraphMLReader.key_table :=
  [(Some "k", GraphMLReader.KeyInfo "flag" Tbool (Some "node"))].

Definition edge_elt (a : list (string * string)) (ds : list element) : element :=
  Element (ns "edge") a None ds.

Definition graph_elt (edgedefault : string) (children : list element) : element :=
  Element (ns "graph") [("edgedefault", edgedefault)] None children.

(** An undirected edge inside a directed graph. *)
Definition mixed_edge : element :=
  edge_elt [("source", "a"); ("target", "b"); ("directed", "false")] [].

Definition mixed_graph : element :=
  graph_elt "directed" [node "a" []; node "b" []; mixed_edge].

Definition mixed_document : element := graphml [mixed_graph].

(** A key declaration without a name. *)
Definition nameless_key : element :=
  Element (ns "key") [("id", "k0"); ("for", "node"); ("attr.type", "int")] None [].

Definition nameless_document : element :=
  graphml [nameless_key; graph_elt "undirected" [node "a" []]].

(** An edge whose id is the empty text. *)
Definition empty_id_edge : element :=
  edge_elt [("id", ""); ("source", "a"); ("target", "b")] [].

Definition empty_id_document : element :=
  graphml [graph_elt "undirected" [node "a" []; node "b" []; empty_id_edge]].

(** One edge with an id, and the same edge twice. *)
Definition id_edge (id : string) : element :=
  edge_elt [("id", id); ("source", "a"); ("target", "b")] [].

Definition one_edge_graph : element :=
  graph_elt "undirected" [node "a" []; node "b" []; id_edge "e1"].

Definition parallel_graph : element :=
  graph_elt "undirected" [node "a" []; node "b" []; id_edge "e1"; id_edge "e2"].

(** A document of two graphs, the first with parallel edges. *)
Definition two_graph_document : element :=
  graphml [parallel_graph; one_edge_graph].
End Examples.

(** * Vocabulary of the properties *)

Section Vocabulary.
Context {B : Builtins}.
Import GraphML GraphMLReader.

Definition data_tag : string := qname NS_GRAPHML "data".

(** The accepted boolean tokens. *)
Definition bool_token (t : string) : option bool :=
  let l := lower t in
  if String.eqb l "true" || String.eqb l "1" then Some true
  else if String.eqb l "false" || String.eqb l "0" then Some false
  else None.

Definition graph_tag : string := qname NS_GRAPHML "graph".

Definition node_tag : string := qname NS_GRAPHML "node".

Definition edge_tag : string := qname NS_GRAPHML "edge".

Definition key_tag : string := qname NS_GRAPHML "key".

(** [d] is a data element of a graph of the document, or of a node or an
    edge of such a graph. *)
Definition data_in (xml d : element) : Prop :=
  exists g, In g (findall xml graph_tag) /\
    (In d (findall g data_tag)
     \/ (exists n, In n (findall g node_tag) /\ In d (findall n data_tag))
     \/ (exists e, In e (findall g edge_tag) /\ In d (findall e data_tag))).

(** The edge contradicts the directedness [b] of its graph. *)
Definition contradicts (b : bool) (e : element) : Prop :=
  (b = true /\ get e "directed" = Some "false")
  \/ (b = false /\ get e "directed" = Some "true").

Definition no_type_warning : string := "No key type for id. Using string".

(** The defaults table after a key element. *)
Definition defaults_after (defs : default_table) (k : element) : default_table :=
  match find k (qname NS_GRAPHML "default") with
  | Some default => dict_set (option_eqb String.eqb) defs (get k "id") (text default)
  | None => defs
  end.
End Vocabulary.


Section WriterVocabulary.
Context {B : Builtins}.
Import GraphML GraphMLWriter.

(** The registry is in order: the entry made [i]-th holds the identifier
    [d<i>], and no (name, type, scope) triple has two entries. *)
Definition registry_ok (w : writer) : Prop :=
  map snd (keys w) = map key_id (seq 0 (List.length (keys w)))
  /\ NoDup (map fst (keys w)).

(** The (name, scope) pair of a registry entry. *)
Definition entry_pair (e : keys_key * string) : string * string :=
  let '((n, _, s), _) := e in (n, s).

(** [w'] is a later state of the writer [w] within an operation: the
    registry has grown at its end, and stayed in order. *)
Definition evolves (w w' : writer) : Prop :=
  (exists l, keys w' = keys w ++ l)
  /\ (registry_ok w -> registry_ok w')
  /\ infer_numeric_types w' = infer_numeric_types w.

(** Precedence of the classes under type inference. *)
Definition rank (t : pytype) : nat :=
  match t with
  | Tbool => 0
  | Tint => 1
  | Tfloat => 2
  | Tstr => 3
  | Tother _ => 0
  end.

Definition supported (t : pytype) : Prop :=
  t = Tstr \/ t = Tint \/ t = Tfloat \/ t = Tbool.

(** The key declarations of a document for a name and a scope. *)
Definition keys_for (doc : welement) (name scope : string) : list welement :=
  filter (fun e =>
            String.eqb (wtag e) "key"
            && option_eqb py_eqb (dict_get String.eqb (wattrib e) "attr.name")
                          (Some (VStr name))
            && option_eqb py_eqb (dict_get String.eqb (wattrib e) "for")
                          (Some (VStr scope)))
         (wchildren doc).

(** Two edges with a [weight], an integer on one and the float [x] on the
    other. *)
Definition weight_graph (x : float) : nxgraph :=
  NxGraph false false []
          [(VStr "a", []); (VStr "b", []); (VStr "c", [])]
          [Edge (VStr "a") (VStr "b") None [("weight", VInt 1)];
           Edge (VStr "b") (VStr "c") None [("weight", VFloat x)]].

(** The GraphML type inference resolves a (name, scope) pair to; under
    inference [attr_type] does not look at the value. *)
Definition resolved (w : writer) (n s : string) : option string :=
  match attr_type w n s VNone with
  | Ok ty => dict_get pytype_eqb xml_type ty
  | Raise _ => None
  end.

(** Every entry of the registry has the type its pair resolves to. *)
Definition typed_registry (w : writer) : Prop :=
  forall n t s id, In ((n, t, s), id) (keys w) -> resolved w n s = Some t.

(** [w'] differs from [w] by observed types only. *)
Definition observes (w w' : writer) : Prop :=
  keys w' = keys w /\ xml w' = xml w
  /\ infer_numeric_types w' = infer_numeric_types w.

(** [w'] differs from [w] by registered keys only. *)
Definition registers (w w' : writer) : Prop :=
  attribute_types w' = attribute_types w
  /\ infer_numeric_types w' = infer_numeric_types w.

(** Two nodes with an attribute [x], an integer on one and a text on the
    other. *)
Definition mixed_type_graph : nxgraph :=
  NxGraph false false []
          [(VStr "a", [("x", VInt 1)]); (VStr "b", [("x", VStr "s")])] [].

(** Two nodes with an attribute [flag], [True] on one and [None] on the
    other. *)
Definition flag_graph : nxgraph :=
  NxGraph false false []
          [(VStr "a", [("flag", VBool true)]); (VStr "b", [("flag", VNone)])] [].

(** A graph whose [id] is [None]. *)
Definition none_id_graph : nxgraph :=
  NxGraph true false
          [("id", GVal VNone); ("name", GVal (VStr "roads"))]
          [(VStr "a", [])] [].

(** The [id] attribute of the graph element for a popped value. *)
Definition id_attrib (v : gval) : list (string * pyval) :=
  match as_obj v with
  | VNone => []
  | x => [("id", x)]
  end.

(** A graph with an [id] and a [name]. *)
Definition named_graph : nxgraph :=
  NxGraph true false
          [("id", GVal (VStr "g7")); ("name", GVal (VStr "roads"))]
          [(VStr "a", [])] [].
End WriterVocabulary.

Section DecodeVocabulary.
Context {B : Builtins}.
Import GraphML GraphMLReader.
Variable node_type : option string -> result pyval.

(** The values Python's [==] tells apart exactly as they are written: texts
    and integers. *)
Definition plain (v : pyval) : Prop :=
  match v with
  | VStr _ | VInt _ => True
  | _ => False
  end.

(** The converted end nodes of an edge element. *)
Definition endpoints (e : element) : option (pyval * pyval) :=
  match node_type (get e "source"), node_type (get e "target") with
  | Ok s, Ok t => Some (s, t)
  | _, _ => None
  end.

Definition pairs_of (es : list element) : list (pyval * pyval) :=
  flat_map (fun e => match endpoints e with Some p => [p] | None => [] end) es.

(** The pair [p] of a later edge meets the pair [q] of an earlier one:
    [G.has_edge] holds for [p] once an edge [q] is in the graph. *)
Definition same_pair (directed : bool) (p q : pyval * pyval) : bool :=
  joins directed (fst p) (snd p) (Edge (fst q) (snd q) None []).

(** Some endpoint pair is met again by a later edge. *)
Definition duplicate_pair (directed : bool) (l : list (pyval * pyval)) : Prop :=
  exists l1 q l2 p l3,
    l = l1 ++ q :: l2 ++ p :: l3 /\ same_pair directed p q = true.

Fixpoint has_dup (directed : bool) (l : list (pyval * pyval)) : bool :=
  match l with
  | [] => false
  | q :: l' => existsb (fun p => same_pair directed p q) l' || has_dup directed l'
  end.

(** The [id] of an edge element, where it is present and not empty. *)
Definition edge_id_of (e : element) : option string :=
  match get e "id" with
  | Some (String c s) => Some (String c s)
  | _ => None
  end.

(** The entries of [edge_ids] the edge elements make. *)
Definition ids_of (es : list element) : list ((pyval * pyval) * string) :=
  flat_map (fun e => match endpoints e, edge_id_of e with
                     | Some p, Some id => [(p, id)]
                     | _, _ => []
                     end) es.

(** The edge of the simple graph an edge element with data [d] becomes. *)
Definition simple_edge (p : pyval * pyval) (d : attrs) (id : option string) : edge :=
  Edge (fst p) (snd p) None
       match id with
       | Some i => dict_set String.eqb d "id" (VStr i)
       | None => d
       end.

Definition plain_pair (p : pyval * pyval) : Prop := plain (fst p) /\ plain (snd p).

(** The edge element [e] is the edge [ed] of the simple graph: its end
    nodes, no key, its data, and its [id] as the attribute [id]. *)
Definition downgraded (keys : key_table) (e : element) (ed : edge) : Prop :=
  exists p d,
    endpoints e = Some p
    /\ decode_data_elements keys e = Ok d
    /\ ed = simple_edge p d (edge_id_of e).

(** The edge element [e] is the edge [ed] of the multigraph under
    construction, whatever its key. *)
Definition decoded_as (keys : key_table) (e : element) (ed : edge) : Prop :=
  exists d,
    decode_data_elements keys e = Ok d
    /\ endpoints e = Some (src ed, dst ed)
    /\ edata ed = d.

(** What holds of the graph and the reader once the edge elements [done]
    are added. *)
Definition edge_inv (d : bool) (keys : key_table) (done : list element)
           (s : nxgraph * state) : Prop :=
  is_directed (fst s) = d
  /\ is_multigraph (fst s) = true
  /\ multigraph (snd s) = has_dup d (pairs_of done)
  /\ List.length (pairs_of done) = List.length done
  /\ Forall (fun ed => ekey ed <> None) (edges (fst s))
  /\ (multigraph (snd s) = false ->
      Forall2 (decoded_as keys) done (edges (fst s))
      /\ edge_ids (snd s) = ids_of done).
End DecodeVocabulary.
(** * Properties *)

(** ** Identifiers and dictionaries *)

(** *** Key identifiers *)

Lemma key_id_inj (n m : nat) : key_id n = key_id m -> n = m.
Proof.
  unfold key_id. cbn. intros H. inversion H as [H'].
  assert (D : forall k, option_map Nat.of_uint
                (NilZero.uint_of_string (NilZero.string_of_uint (Nat.to_uint k)))
              = Some k).
  { intros k. pose proof (DecimalNat.Unsigned.of_to k) as Hk.
    destruct (Nat.to_uint k) eqn:E;
      [rewrite NilZero.usu_nil; cbn; cbn in Hk; congruence | ..];
      (rewrite NilZero.usu; [cbn [option_map]; now rewrite Hk | discriminate]). }
  pose proof (D n) as Dn. rewrite H', D in Dn. congruence.
Qed.

(** *** Dictionaries *)

Section DictFacts.
Context {K V : Type} (eqb : K -> K -> bool).
Hypothesis eqb_eq : forall a b, eqb a b = true <-> a = b.

Lemma eqb_refl_of (a : K) : eqb a a = true.
Proof. now apply eqb_eq. Qed.

Lemma eqb_neq_of (a b : K) : a <> b -> eqb a b = false.
Proof.
  intros H. destruct (eqb a b) eqn:E; [|reflexivity].
  apply eqb_eq in E. contradiction.
Qed.

Lemma dict_get_In (d : list (K * V)) k v :
  dict_get eqb d k = Some v -> In (k, v) d.
Proof.
  induction d as [|[k' v'] d IH]; cbn; [discriminate|].
  destruct (eqb k k') eqn:E.
  - apply eqb_eq in E. subst. intros H. inversion H. now left.
  - auto.
Qed.

Lemma dict_get_found (d : list (K * V)) k v :
  dict_get eqb d k = Some v -> exists k', In (k', v) d /\ eqb k k' = true.
Proof.
  induction d as [|[k' v'] d IH]; cbn; [discriminate|].
  destruct (eqb k k') eqn:E.
  - intros H. inversion H; subst. exists k'. split; [now left | exact E].
  - intros H. destruct (IH H) as (k0 & Hin & Hk). exists k0. split; [now right | exact Hk].
Qed.

Lemma dict_get_None (d : list (K * V)) k :
  dict_get eqb d k = None <-> ~ In k (map fst d).
Proof.
  induction d as [|[k' v'] d IH]; cbn; [tauto|].
  destruct (eqb k k') eqn:E.
  - apply eqb_eq in E. subst. split; [discriminate | intros H; exfalso; auto].
  - rewrite IH. split; [intros H [H'|H']; [subst; rewrite eqb_refl_of in E; discriminate | auto] | auto].
Qed.

Lemma dict_get_NoDup (d : list (K * V)) k v :
  NoDup (map fst d) -> In (k, v) d -> dict_get eqb d k = Some v.
Proof.
  induction d as [|[k' v'] d IH]; cbn; [contradiction|].
  intros Hnd [H|H].
  - inversion H; subst. now rewrite eqb_refl_of.
  - inversion Hnd; subst. destruct (eqb k k') eqn:E.
    + apply eqb_eq in E. subst. exfalso. apply H2.
      change k' with (fst (k', v)). now apply in_map.
    + auto.
Qed.

Lemma dict_set_absent (d : list (K * V)) k v :
  dict_get eqb d k = None -> dict_set eqb d k v = d ++ [(k, v)].
Proof.
  induction d as [|[k' v'] d IH]; cbn; [reflexivity|].
  destruct (eqb k k'); [discriminate|]. intros H. now rewrite IH.
Qed.

Lemma dict_set_keys (d : list (K * V)) k v :
  map fst (dict_set eqb d k v) =
    if dict_mem eqb d k then map fst d else map fst d ++ [k].
Proof.
  unfold dict_mem.
  induction d as [|[k' v'] d IH]; cbn; [reflexivity|].
  destruct (eqb k k') eqn:E; cbn; [reflexivity|].
  rewrite IH. now destruct (dict_get eqb d k).
Qed.

Lemma dict_set_NoDup (d : list (K * V)) k v :
  NoDup (map fst d) -> NoDup (map fst (dict_set eqb d k v)).
Proof.
  intros H. rewrite dict_set_keys. unfold dict_mem.
  destruct (dict_get eqb d k) eqn:E; [assumption|].
  apply dict_get_None in E.
  apply NoDup_app; [assumption | repeat constructor; auto | ].
  intros x Hx [<-|[]]. contradiction.
Qed.

Lemma dict_get_set_same (d : list (K * V)) k v :
  dict_get eqb (dict_set eqb d k v) k = Some v.
Proof.
  induction d as [|[k' v'] d IH]; cbn.
  - now rewrite eqb_refl_of.
  - destruct (eqb k k') eqn:E; cbn; rewrite E; auto.
Qed.

Lemma dict_get_set_other (d : list (K * V)) k k' v :
  k' <> k -> dict_get eqb (dict_set eqb d k v) k' = dict_get eqb d k'.
Proof.
  intros Hne.
  induction d as [|[k0 v0] d IH]; cbn.
  - now rewrite (eqb_neq_of k' k).
  - destruct (eqb k k0) eqn:E; cbn.
    + apply eqb_eq in E. subst. now rewrite (eqb_neq_of k' k0).
    + now rewrite IH.
Qed.

Lemma dict_get_del_other (d : list (K * V)) k k' :
  k' <> k -> dict_get eqb (dict_del eqb d k) k' = dict_get eqb d k'.
Proof.
  intros Hne.
  induction d as [|[k0 v0] d IH]; cbn; [reflexivity|].
  destruct (eqb k k0) eqn:E; cbn.
  - apply eqb_eq in E. subst. now rewrite (eqb_neq_of k' k0).
  - now rewrite IH.
Qed.

Lemma dict_get_del_same (d : list (K * V)) k :
  NoDup (map fst d) -> dict_get eqb (dict_del eqb d k) k = None.
Proof.
  induction d as [|[k0 v0] d IH]; cbn; [reflexivity|].
  intros Hnd. inversion Hnd; subst.
  destruct (eqb k k0) eqn:E; cbn.
  - apply eqb_eq in E. subst. now apply dict_get_None.
  - rewrite E. auto.
Qed.
End DictFacts.

Lemma keys_key_eqb_eq (a b : GraphMLWriter.keys_key) :
  GraphMLWriter.keys_key_eqb a b = true <-> a = b.
Proof.
  destruct a as [[n t] s], b as [[n' t'] s']. cbn.
  rewrite !andb_true_iff, !String.eqb_eq.
  split; [intros [[-> ->] ->]; reflexivity | intros H; inversion H; auto].
Qed.

Lemma name_scope_eqb_eq (a b : string * string) :
  GraphMLWriter.name_scope_eqb a b = true <-> a = b.
Proof.
  destruct a, b. unfold GraphMLWriter.name_scope_eqb. cbn.
  rewrite andb_true_iff, !String.eqb_eq.
  split; [intros [-> ->]; reflexivity | intros H; inversion H; auto].
Qed.

Lemma option_string_eqb_eq (a b : option string) :
  option_eqb String.eqb a b = true <-> a = b.
Proof.
  destruct a, b; cbn; try (split; congruence).
  rewrite String.eqb_eq. split; congruence.
Qed.

Lemma pytype_eqb_eq (a b : pytype) : pytype_eqb a b = true <-> a = b.
Proof.
  destruct a, b; cbn; try (split; congruence).
  rewrite String.eqb_eq. split; congruence.
Qed.


(** ** Loops *)

Section Loops.
Context {S X : Type} (body : S -> X -> result S).

Lemma for_each_app (xs ys : list X) (s : S) :
  for_each body (xs ++ ys) s = (s' <- for_each body xs s ;; for_each body ys s').
Proof.
  revert s; induction xs as [|x xs IH]; intros s; simpl; [reflexivity|].
  destruct (body s x); simpl; auto.
Qed.

(** A round that raises in every state a loop can be in ends the loop with
    an exception. *)
Lemma for_each_raises (Inv : S -> Prop) (x : X) (xs : list X) :
  In x xs ->
  (forall s y s', Inv s -> body s y = Ok s' -> Inv s') ->
  (forall s, Inv s -> exists e, body s x = Raise e) ->
  forall s, Inv s -> exists e, for_each body xs s = Raise e.
Proof.
  intros Hin Hstep Hx.
  induction xs as [|y xs IH]; intros s Hs; [destruct Hin|].
  simpl. destruct Hin as [-> | Hin].
  - destruct (Hx s Hs) as [e ->]. simpl. eauto.
  - destruct (body s y) eqn:E; simpl; [|eauto].
    apply IH; [assumption|]. eapply Hstep; eauto.
Qed.

Lemma for_each_raises_any (x : X) (xs : list X) :
  In x xs ->
  (forall s, exists e, body s x = Raise e) ->
  forall s, exists e, for_each body xs s = Raise e.
Proof.
  intros Hin Hx s.
  apply (for_each_raises (fun _ => True) x xs); auto.
Qed.

Lemma for_each_invariant (Inv : S -> Prop) (xs : list X) :
  (forall s y s', In y xs -> Inv s -> body s y = Ok s' -> Inv s') ->
  forall s s', Inv s -> for_each body xs s = Ok s' -> Inv s'.
Proof.
  induction xs as [|y xs IH]; intros Hstep s s' Hs H; simpl in H.
  - now inversion H; subst.
  - destruct (body s y) eqn:E; simpl in H; [|discriminate].
    apply (IH (fun s y s' Hy => Hstep s y s' (or_intror Hy)) a s'); auto.
    eapply Hstep; eauto. now left.
Qed.
End Loops.

Lemma bind_ok {A C : Type} (m : result A) (f : A -> result C) (c : C) :
  bind m f = Ok c -> exists a, m = Ok a /\ f a = Ok c.
Proof. destruct m; simpl; [eauto | discriminate]. Qed.

Lemma bind_raise {A C : Type} (m : result A) (f : A -> result C) :
  (forall a, exists e, f a = Raise e) -> exists e, bind m f = Raise e.
Proof. intros H. destruct m; simpl; eauto. Qed.

Ltac split_pairs :=
  repeat match goal with
         | x : ?T |- _ =>
             let T' := eval hnf in T in
             match T' with prod _ _ => destruct x end
         end.

Ltac inv_ok :=
  repeat match goal with
         | H : bind _ _ = Ok _ |- _ =>
             let a := fresh "a" in
             let Ha := fresh "Ha" in
             apply bind_ok in H; destruct H as (a & Ha & H); split_pairs
         | H : Ok _ = Ok _ |- _ => inversion H; subst; clear H
         | H : Raise _ = Ok _ |- _ => discriminate H
         end.

(** ** The reader *)

Section ReaderProperties.
Context {B : Builtins}.
Import GraphML GraphMLReader.
Variable node_type : option string -> result pyval.
Variable edge_key_type : string -> result pyval.

Lemma decode_data_elements_raises (keys : key_table) (obj d : element) :
  In d (findall obj data_tag) ->
  (forall data, exists e, decode_data_element keys data d = Raise e) ->
  exists e, decode_data_elements keys obj = Raise e.
Proof.
  intros Hin Hd. unfold decode_data_elements.
  apply (for_each_raises_any _ d); auto.
Qed.

Lemma convert_bool_token (t : string) :
  dict_get String.eqb convert_bool (lower t) = bool_token t.
Proof.
  unfold bool_token, convert_bool. generalize (lower t) as l. intros l.
  cbn [dict_get].
  destruct (String.eqb l "true") eqn:E1, (String.eqb l "false") eqn:E2,
           (String.eqb l "0") eqn:E3, (String.eqb l "1") eqn:E4;
    cbn; try reflexivity;
    repeat match goal with
           | H : String.eqb _ _ = true |- _ => apply String.eqb_eq in H
           end; subst; discriminate.
Qed.

Lemma decode_boolean (keys : key_table) (data : attrs) (d : element)
      (info : key_info) (t : string) :
  dict_get (option_eqb String.eqb) keys (get d "key") = Some info ->
  k_type info = Tbool ->
  text d = Some t ->
  children d = [] ->
  decode_data_element keys data d =
    match bool_token t with
    | Some b => Ok (dict_set String.eqb data (k_name info) (VBool b))
    | None => Raise KeyError
    end.
Proof.
  intros Hk Ht Hx Hc. unfold decode_data_element.
  rewrite Hk, Hx, Hc, Ht. cbn [pytype_eqb]. cbv iota beta.
  now rewrite convert_bool_token.
Qed.

(** *** A failing element fails the decode *)

Ltac step_result :=
  match goal with
  | H1 : ?m = Raise _, H2 : ?m = Ok _ |- _ => congruence
  | H : Ok _ = Raise _ |- _ => discriminate H
  | |- exists e, Raise _ = Raise e => eauto
  | |- exists e, bind ?m _ = Raise e =>
      let a := fresh "a" in
      destruct m as [a|] eqn:?; cbn [bind]; [|eauto]
  | |- exists e, (let '(_, _) := ?p in _) = Raise e => destruct p
  | |- exists e, match ?o with Some _ => _ | None => _ end = Raise e =>
      destruct o; try solve [eauto]
  | |- exists e, (if ?c then _ else _) = Raise e =>
      destruct c; try solve [eauto]
  end.

Lemma add_node_raises st G n keys :
  (exists e, decode_data_elements keys n = Raise e) ->
  exists e, add_node node_type st G n keys = Raise e.
Proof.
  intros [e He]. unfold add_node. cbv zeta. repeat step_result.
Qed.

Lemma add_edge_raises st G n keys :
  (exists e, decode_data_elements keys n = Raise e) ->
  exists e, add_edge node_type edge_key_type st G n keys = Raise e.
Proof.
  intros [e He]. unfold add_edge. cbv zeta. repeat step_result.
Qed.

Lemma make_graph_raises_data st g keys defaults d :
  (In d (findall g data_tag)
   \/ (exists n, In n (findall g node_tag) /\ In d (findall n data_tag))
   \/ (exists e, In e (findall g edge_tag) /\ In d (findall e data_tag))) ->
  (forall data, exists e, decode_data_element keys data d = Raise e) ->
  exists e, make_graph node_type edge_key_type st g keys defaults = Raise e.
Proof.
  intros Hpos Hd. unfold make_graph. cbv zeta.
  step_result. step_result.
  destruct Hpos as [Hg | [(n & Hn & Hdn) | (n & Hn & Hdn)]].
  - destruct (decode_data_elements_raises keys g d Hg Hd) as [e He].
    repeat step_result.
  - match goal with
    | |- exists e, bind (for_each ?body ?xs ?s) _ = Raise e =>
        assert (H : exists e, for_each body xs s = Raise e);
          [apply (for_each_raises_any body n xs Hn); intros [G' st']
          | destruct H as [e ->]; cbn; eauto]
    end.
    apply add_node_raises.
    eapply decode_data_elements_raises; eauto.
  - step_result. destruct a0 as [G' st'].
    match goal with
    | |- exists e, bind (for_each ?body ?xs ?s) _ = Raise e =>
        assert (H : exists e, for_each body xs s = Raise e);
          [apply (for_each_raises_any body n xs Hn); intros [G'' st'']
          | destruct H as [e ->]; cbn; eauto]
    end.
    apply add_edge_raises.
    eapply decode_data_elements_raises; eauto.
Qed.

Lemma call_raises_graph st xml g :
  In g (findall xml graph_tag) ->
  (forall keys defaults ws st',
      find_graphml_keys xml = Ok (keys, defaults, ws) ->
      exists e, make_graph node_type edge_key_type st' g keys defaults = Raise e) ->
  exists e, call node_type edge_key_type st xml = Raise e.
Proof.
  intros Hg H. unfold call.
  destruct (find_graphml_keys xml) as [[[keys defaults] ws]|] eqn:E; cbn [bind]; [|eauto].
  match goal with
  | |- exists e, for_each ?body ?xs ?s = Raise e =>
      apply (for_each_raises_any body g xs Hg)
  end.
  intros [glist st'].
  destruct (H keys defaults ws st' eq_refl) as [e ->]. cbn. eauto.
Qed.

Lemma call_raises_data st xml d :
  data_in xml d ->
  (forall keys defaults ws data,
      find_graphml_keys xml = Ok (keys, defaults, ws) ->
      exists e, decode_data_element keys data d = Raise e) ->
  exists e, call node_type edge_key_type st xml = Raise e.
Proof.
  intros (g & Hg & Hpos) Hd.
  apply (call_raises_graph st xml g Hg).
  intros keys defaults ws st' Hk.
  apply make_graph_raises_data with (d := d); eauto.
Qed.

(** C7.  A data element of a boolean key, with text and no sub-element,
    decodes by the lower-cased text: [true] and [1] give the value true,
    [false] and [0] the value false, and any other token raises (a
    [KeyError] of the [convert_bool] table).  An element with such a token
    anywhere in a graph of the document makes the decode of the document
    fail.  So [TRUE] decodes to true, and [2] is an error. *)
Theorem boolean_literals (xml d : element) (keys : key_table)
        (defaults : default_table) (ws : list string)
        (info : key_info) (t : string) :
  find_graphml_keys xml = Ok (keys, defaults, ws) ->
  dict_get (option_eqb String.eqb) keys (get d "key") = Some info ->
  k_type info = Tbool ->
  text d = Some t ->
  children d = [] ->
  (forall data,
      decode_data_element keys data d =
        match bool_token t with
        | Some b => Ok (dict_set String.eqb data (k_name info) (VBool b))
        | None => Raise KeyError
        end)
  /\ (bool_token t = Some true <-> lower t = "true" \/ lower t = "1")
  /\ (bool_token t = Some false <-> lower t = "false" \/ lower t = "0")
  /\ (bool_token t = None ->
      data_in xml d ->
      forall st, exists e, call node_type edge_key_type st xml = Raise e)
  /\ bool_token "TRUE" = Some true
  /\ bool_token "2" = None.
Proof.
  intros Hkeys Hk Ht Hx Hc.
  assert (Hdec := fun data => decode_boolean keys data d info t Hk Ht Hx Hc).
  split; [exact Hdec|].
  split; [|split; [|split; [|split; reflexivity]]].
  - unfold bool_token.
    destruct (String.eqb_spec (lower t) "true") as [E|E];
      destruct (String.eqb_spec (lower t) "1") as [E'|E']; cbn;
      try (split; [auto | reflexivity]).
    destruct (String.eqb (lower t) "false" || String.eqb (lower t) "0");
      split; try discriminate; intros [?|?]; contradiction.
  - unfold bool_token.
    destruct (String.eqb_spec (lower t) "true") as [E|E];
      [rewrite E; cbn; split; [discriminate | intros [?|?]; discriminate]|].
    destruct (String.eqb_spec (lower t) "1") as [E'|E'];
      [rewrite E'; cbn; split; [discriminate | intros [?|?]; discriminate]|].
    cbn.
    destruct (String.eqb_spec (lower t) "false") as [F|F];
      destruct (String.eqb_spec (lower t) "0") as [F'|F']; cbn;
      try (split; [auto | reflexivity]).
    split; [discriminate | intros [?|?]; contradiction].
  - intros Hnone Hin st.
    apply call_raises_data with (d := d); [assumption|].
    intros keys' defaults' ws' data Hkeys'.
    rewrite Hkeys in Hkeys'. inversion Hkeys'; subst.
    rewrite Hdec, Hnone. eauto.
Qed.
(** *** Directedness *)

Lemma is_directed_add_node (G : nxgraph) n data :
  is_directed (nx.add_node G n data) = is_directed G.
Proof. unfold nx.add_node. destruct (dict_get _ _ _); reflexivity. Qed.

Lemma is_directed_add_edges_from (G : nxgraph) u v key data :
  is_directed (add_edges_from G u v key data) = is_directed G.
Proof.
  unfold add_edges_from, add_edges_from_nodes.
  repeat match goal with
         | |- context [if ?c then _ else _] => destruct c
         end; reflexivity.
Qed.

Lemma is_directed_add_default keys G kv G' :
  add_default keys G kv = Ok G' -> is_directed G' = is_directed G.
Proof.
  unfold add_default. destruct kv as [key_id value].
  destruct (dict_get _ keys key_id) as [info|]; [|discriminate].
  intros H.
  assert (Hupd : forall bag G1 G2,
             (v <- construct (k_type info) value ;;
              match dict_get String.eqb (graph G1) bag with
              | Some (GDict d) =>
                  Ok (set_graph G1 (dict_set String.eqb (graph G1) bag
                                      (GDict (dict_set String.eqb d (k_name info) v))))
              | _ => Raise AttributeError
              end) = Ok G2 -> is_directed G2 = is_directed G1).
  { intros bag G1 G2 H1. inv_ok.
    destruct (dict_get String.eqb (graph G1) bag) as [[|]|]; inv_ok. reflexivity. }
  apply bind_ok in H. destruct H as (G1 & H1 & H2).
  assert (is_directed G1 = is_directed G) as <-.
  { destruct (option_eqb String.eqb (k_for info) (Some "node"));
      [eapply Hupd; eauto | now inversion H1]. }
  destruct (option_eqb String.eqb (k_for info) (Some "edge"));
    [eapply Hupd; eauto | now inversion H2].
Qed.

Lemma is_directed_reader_add_node st G n keys G' st' :
  add_node node_type st G n keys = Ok (G', st') -> is_directed G' = is_directed G.
Proof.
  unfold add_node. cbv zeta. intros H. inv_ok. apply is_directed_add_node.
Qed.

Lemma is_directed_reader_add_edge st G e keys G' st' :
  add_edge node_type edge_key_type st G e keys = Ok (G', st') ->
  is_directed G' = is_directed G.
Proof.
  unfold add_edge. cbv zeta. intros H.
  destruct (is_directed G && _); [discriminate|].
  destruct (negb (is_directed G) && _); [discriminate|].
  inv_ok. apply is_directed_add_edges_from.
Qed.

Lemma add_edge_mismatch st G e keys :
  contradicts (is_directed G) e ->
  exists msg, add_edge node_type edge_key_type st G e keys = Raise (NetworkXError msg).
Proof.
  unfold add_edge. cbv zeta.
  intros [[-> ->] | [-> ->]]; cbn; eauto.
Qed.

(** C8.  An edge element whose [directed] attribute contradicts the
    directedness of its graph ([directed="false"] where [edgedefault] is
    [directed], [directed="true"] where it is not) makes [add_edge] raise a
    [NetworkXError], and the decode of the whole document fails. *)
Theorem direction_mismatch (xml g e : element) :
  In g (findall xml graph_tag) ->
  In e (findall g edge_tag) ->
  contradicts (option_eqb String.eqb (get g "edgedefault") (Some "directed")) e ->
  (forall st G keys,
      is_directed G = option_eqb String.eqb (get g "edgedefault") (Some "directed") ->
      exists msg,
        add_edge node_type edge_key_type st G e keys = Raise (NetworkXError msg))
  /\ (forall st, exists err, call node_type edge_key_type st xml = Raise err).
Proof.
  intros Hg He Hc. split.
  - intros st G keys HG. apply add_edge_mismatch. now rewrite HG.
  - intros st. apply (call_raises_graph st xml g Hg).
    intros keys defaults ws st' _. unfold make_graph. cbv zeta.
    set (b := option_eqb String.eqb (get g "edgedefault") (Some "directed")) in *.
    match goal with
    | |- exists e, bind (for_each ?body ?xs ?s) _ = Raise e =>
        destruct (for_each body xs s) as [G1|] eqn:E1; cbn [bind]; [|eauto];
          assert (HG1 : is_directed G1 = b)
    end.
    { apply (for_each_invariant _ (fun G => is_directed G = b)) in E1; auto.
      intros G y G' _ HG Hy. apply is_directed_add_default in Hy. congruence. }
    destruct (find g (qname NS_GRAPHML "hyperedge")); [eauto|].
    match goal with
    | |- exists e, bind (for_each ?body ?xs ?s) _ = Raise e =>
        destruct (for_each body xs s) as [[G2 st2]|] eqn:E2; cbn [bind]; [|eauto];
          assert (HG2 : is_directed G2 = b)
    end.
    { apply (for_each_invariant _ (fun p => is_directed (fst p) = b)) in E2; auto.
      intros [G y] n [G' y'] _ HG Hy. cbn in *.
      apply is_directed_reader_add_node in Hy. congruence. }
    match goal with
    | |- exists e, bind (for_each ?body ?xs ?s0) _ = Raise e =>
        assert (H : exists err, for_each body xs s0 = Raise err);
          [apply (for_each_raises body (fun p => is_directed (fst p) = b) e xs He)
          | destruct H as [err ->]; cbn; eauto]
    end.
    + intros [G y] n [G' y'] HG Hy. cbn in *.
      apply is_directed_reader_add_edge in Hy. congruence.
    + intros [G y] HG. cbn in HG.
      destruct (add_edge_mismatch y G e keys) as [msg ->]; [now rewrite HG|eauto].
    + exact HG2.
Qed.

(** *** Key declarations *)

Lemma call_raises_keys st xml :
  (exists e, find_graphml_keys xml = Raise e) ->
  exists e, call node_type edge_key_type st xml = Raise e.
Proof. intros [e He]. unfold call. rewrite He. cbn. eauto. Qed.

(** C10.  A key element with neither [attr.name] nor [yfiles.type] raises a
    [NetworkXError] and the decode of the document fails; a key element with
    a name and no [attr.type] is entered with the type of [string] and a
    warning; where [yfiles.type] is present its value is the name of the
    entry and the type is that of the pseudo-type [yfiles], whatever
    [attr.name] and [attr.type] say. *)
Theorem key_declarations (xml k : element) :
  In k (findall xml key_tag) ->
  (get k "attr.name" = None -> get k "yfiles.type" = None ->
   (forall acc, exists msg, find_graphml_key acc k = Raise (NetworkXError msg))
   /\ (forall st, exists e, call node_type edge_key_type st xml = Raise e))
  /\ (forall n keys defs ws,
         get k "yfiles.type" = None -> get k "attr.name" = Some n ->
         get k "attr.type" = None ->
         find_graphml_key (keys, defs, ws) k =
           Ok (dict_set (option_eqb String.eqb) keys (get k "id")
                        (KeyInfo n Tstr (get k "for")),
               defaults_after defs k, ws ++ [no_type_warning])
         /\ dict_get String.eqb python_type "string" = Some Tstr)
  /\ (forall y keys defs ws,
         get k "yfiles.type" = Some y ->
         find_graphml_key (keys, defs, ws) k =
           Ok (dict_set (option_eqb String.eqb) keys (get k "id")
                        (KeyInfo y Tstr (get k "for")),
               defaults_after defs k, ws)
         /\ dict_get String.eqb python_type "yfiles" = Some Tstr).
Proof.
  intros Hk. split; [|split].
  - intros Hn Hy.
    assert (H : forall acc, exists msg, find_graphml_key acc k = Raise (NetworkXError msg)).
    { intros [[keys defs] ws]. unfold find_graphml_key. rewrite Hn, Hy.
      destruct (get k "attr.type"); eauto. }
    split; [exact H|].
    intros st. apply call_raises_keys. unfold find_graphml_keys.
    apply (for_each_raises_any _ k); [exact Hk|].
    intros acc. destruct (H acc) as [msg ->]. eauto.
  - intros n keys defs ws Hy Hn Ht. split; [|reflexivity].
    unfold find_graphml_key, defaults_after. rewrite Hy, Hn, Ht. reflexivity.
  - intros y keys defs ws Hy. split; [|reflexivity].
    unfold find_graphml_key, defaults_after. rewrite Hy. reflexivity.
Qed.

(** *** The key of a decoded edge *)

(** C6 (as the code has it).  The key [add_edge] inserts an edge under is:
    the [id] attribute where it is present and not empty, converted by the
    edge-key type, or as it is written where the conversion raises
    [ValueError] (another exception ends the decode); where the [id] is
    absent or empty, the value of the data attribute [key]; without one, a
    key the graph assigns. *)
Theorem edge_key_priority (edge_id : option string) (data : attrs) :
  (forall id, edge_id = Some id -> id <> "" ->
      (forall k, edge_key_type id = Ok k ->
                 edge_key edge_key_type edge_id data = Ok (Some k))
      /\ (edge_key_type id = Raise ValueError ->
          edge_key edge_key_type edge_id data = Ok (Some (VStr id)))
      /\ (forall e, edge_key_type id = Raise e -> e <> ValueError ->
                    edge_key edge_key_type edge_id data = Raise e))
  /\ (edge_id = None \/ edge_id = Some "" ->
      (forall v, dict_get String.eqb data "key" = Some v -> v <> VNone ->
                 edge_key edge_key_type edge_id data = Ok (Some v))
      /\ (dict_get String.eqb data "key" = None ->
          edge_key edge_key_type edge_id data = Ok None))
  /\ (forall st G e keys G' st',
         add_edge node_type edge_key_type st G e keys = Ok (G', st') ->
         exists source target d key,
           decode_data_elements keys e = Ok d
           /\ edge_key edge_key_type (get e "id") d = Ok key
           /\ G' = add_edges_from G source target key d
           /\ (key = None ->
               G' = add_edges_from G source target
                      (Some (new_edge_key
                               (add_edges_from_nodes G source target) source target)) d)).
Proof.
  split; [|split].
  - intros id -> Hne. destruct id as [|c id]; [congruence|].
    cbn [edge_key]. repeat split.
    + intros k ->. reflexivity.
    + intros ->. reflexivity.
    + intros e -> He. destruct e; congruence.
  - intros Hid. split.
    + intros v Hv Hnn.
      destruct Hid as [-> | ->]; cbn [edge_key]; rewrite Hv; destruct v; congruence.
    + intros Hv. destruct Hid as [-> | ->]; cbn [edge_key]; now rewrite Hv.
  - intros st G e keys G' st'. unfold add_edge. cbv zeta. intros H.
    destruct (is_directed G && _); [discriminate|].
    destruct (negb (is_directed G) && _); [discriminate|].
    inv_ok. exists a, a0, a1, a2. repeat split; auto.
    intros ->. reflexivity.
Qed.

End ReaderProperties.


(** ** The multigraph decision *)

Section Pairs.
Context {B : Builtins}.

Lemma py_eqb_plain (a b : pyval) :
  plain a -> plain b -> (py_eqb a b = true <-> a = b).
Proof.
  destruct a, b; cbn; try contradiction; intros _ _.
  - rewrite String.eqb_eq. split; congruence.
  - split; discriminate.
  - split; discriminate.
  - rewrite Z.eqb_eq. split; congruence.
Qed.

Lemma py_eqb_plain_refl (a : pyval) : plain a -> py_eqb a a = true.
Proof. intros H. now apply py_eqb_plain. Qed.

Lemma py_eqb_plain_sym (a b : pyval) :
  plain a -> plain b -> py_eqb a b = py_eqb b a.
Proof.
  intros Ha Hb.
  destruct (py_eqb a b) eqn:E1, (py_eqb b a) eqn:E2; try reflexivity.
  - apply py_eqb_plain in E1; auto. subst. now rewrite py_eqb_plain_refl in E2.
  - apply py_eqb_plain in E2; auto. subst. now rewrite py_eqb_plain_refl in E1.
Qed.

Lemma same_pair_refl d p : plain_pair p -> same_pair d p p = true.
Proof.
  intros [H1 H2]. unfold same_pair, joins. cbn.
  now rewrite !py_eqb_plain_refl.
Qed.

Lemma same_pair_sym d p q :
  plain_pair p -> plain_pair q -> same_pair d p q = same_pair d q p.
Proof.
  intros [P1 P2] [Q1 Q2]. unfold same_pair, joins. cbn.
  rewrite (py_eqb_plain_sym (fst q) (fst p)), (py_eqb_plain_sym (snd q) (snd p)),
    (py_eqb_plain_sym (fst q) (snd p)), (py_eqb_plain_sym (snd q) (fst p)); auto.
  destruct d; cbn; [reflexivity|].
  destruct (py_eqb (fst p) (fst q) && py_eqb (snd p) (snd q)); cbn; [reflexivity|].
  apply andb_comm.
Qed.

Lemma pair_eqb_same d p q :
  plain_pair p -> plain_pair q ->
  GraphMLReader.pair_eqb p q = true -> same_pair d p q = true.
Proof.
  intros [P1 P2] [Q1 Q2]. unfold GraphMLReader.pair_eqb, same_pair, joins. cbn.
  rewrite (py_eqb_plain_sym (fst q) (fst p)), (py_eqb_plain_sym (snd q) (snd p)); auto.
  intros ->. reflexivity.
Qed.

Lemma has_dup_snoc d l p :
  has_dup d (l ++ [p]) = has_dup d l || existsb (fun q => same_pair d p q) l.
Proof.
  induction l as [|q l IH]; cbn; [reflexivity|].
  rewrite existsb_app, IH. cbn.
  destruct (existsb (fun p0 => same_pair d p0 q) l), (same_pair d p q),
    (has_dup d l), (existsb (fun q0 => same_pair d p q0) l); reflexivity.
Qed.

Lemma has_dup_duplicate d l : has_dup d l = true <-> duplicate_pair d l.
Proof.
  induction l as [|q l IH]; cbn.
  - split; [discriminate|]. intros (l1 & q & l2 & p & l3 & E & _).
    destruct l1; discriminate.
  - rewrite orb_true_iff, existsb_exists, IH. split.
    + intros [(p & Hin & Hp) | (l1 & q' & l2 & p & l3 & E & Hp)].
      * apply in_split in Hin. destruct Hin as (l2 & l3 & ->).
        exists [], q, l2, p, l3. split; [reflexivity | exact Hp].
      * exists (q :: l1), q', l2, p, l3. split; [now rewrite E | exact Hp].
    + intros (l1 & q' & l2 & p & l3 & E & Hp).
      destruct l1 as [|x l1]; cbn in E; inversion E; subst.
      * left. exists p. split; [|exact Hp]. apply in_or_app. right. now left.
      * right. exists l1, q', l2, p, l3. split; [reflexivity | exact Hp].
Qed.
End Pairs.

(** A loop keeps an invariant that follows the elements it has passed. *)
Lemma for_each_prefix {S X : Type} (body : S -> X -> result S)
      (Inv : list X -> S -> Prop) (xs : list X) :
  (forall done x s s', Inv done s -> body s x = Ok s' -> Inv (done ++ [x]) s') ->
  forall done s s', Inv done s -> for_each body xs s = Ok s' -> Inv (done ++ xs) s'.
Proof.
  intros Hstep. induction xs as [|x xs IH]; intros done s s' HI H; cbn in H.
  - inversion H; subst. now rewrite app_nil_r.
  - inv_ok. replace (done ++ x :: xs) with ((done ++ [x]) ++ xs)
      by (now rewrite <- app_assoc).
    eapply IH; eauto.
Qed.

Section Downgrade.
Context {B : Builtins}.
Import GraphML GraphMLReader.
Variable node_type : option string -> result pyval.
Variable edge_key_type : string -> result pyval.
Hypothesis node_type_plain : forall x v, node_type x = Ok v -> plain v.

Lemma endpoints_plain e p : endpoints node_type e = Some p -> plain_pair p.
Proof.
  unfold endpoints.
  destruct (node_type (get e "source")) as [s|] eqn:Es; [|discriminate].
  destruct (node_type (get e "target")) as [t|] eqn:Et; [|discriminate].
  intros H. inversion H; subst. split; cbn; eauto.
Qed.

(** What [add_edge] does to the graph and to the reader. *)
Lemma add_edge_ok st G e keys G' st' :
  add_edge node_type edge_key_type st G e keys = Ok (G', st') ->
  exists s t d key,
    endpoints node_type e = Some (s, t)
    /\ decode_data_elements keys e = Ok d
    /\ G' = add_edges_from G s t key d
    /\ multigraph st' = (multigraph st || has_edge G s t)
    /\ edge_ids st' =
         match edge_id_of e with
         | Some id => dict_set pair_eqb (edge_ids st) (s, t) id
         | None => edge_ids st
         end.
Proof.
  unfold add_edge. cbv zeta. intros H.
  destruct (is_directed G && _); [discriminate|].
  destruct (negb (is_directed G) && _); [discriminate|].
  inv_ok. exists a, a0, a1, a2.
  unfold endpoints. rewrite Ha, Ha0.
  split; [reflexivity|]. split; [assumption|]. split; [reflexivity|].
  unfold edge_id_of.
  destruct (find e (qname NS_GRAPHML "port")); cbn;
    destruct (get e "id") as [[|c i]|]; cbn;
    destruct (has_edge G a a0); cbn;
    rewrite ?orb_true_r, ?orb_false_r; auto.
Qed.

Lemma joins_ends d u v e e' :
  src e = src e' -> dst e = dst e' -> joins d u v e = joins d u v e'.
Proof. unfold joins. now intros -> ->. Qed.

Lemma has_key_joins d u v k e : has_key d u v k e = true -> joins d u v e = true.
Proof. unfold has_key. now intros H%andb_true_iff. Qed.

Lemma edges_add_edges_from_nodes G u v :
  edges (add_edges_from_nodes G u v) = edges G
  /\ is_directed (add_edges_from_nodes G u v) = is_directed G
  /\ is_multigraph (add_edges_from_nodes G u v) = is_multigraph G.
Proof.
  unfold add_edges_from_nodes.
  repeat match goal with
         | |- context [if ?c then _ else _] => destruct c
         end; repeat split.
Qed.

(** An edge between nodes no edge joins yet is added at the end. *)
Lemma add_edges_from_new G u v key d :
  has_edge G u v = false ->
  exists k, edges (add_edges_from G u v key d) = edges G ++ [Edge u v (Some k) d].
Proof.
  intros Hno. unfold add_edges_from.
  destruct (edges_add_edges_from_nodes G u v) as (He & Hd & _).
  set (G2 := add_edges_from_nodes G u v) in *.
  set (k := match key with Some k => k | None => new_edge_key G2 u v end).
  assert (Hk : existsb (has_key (is_directed G2) u v k) (edges G2) = false).
  { rewrite He, Hd. apply not_true_is_false. intros H.
    apply existsb_exists in H. destruct H as (e & Hin & Hk).
    apply has_key_joins in Hk.
    unfold has_edge in Hno.
    assert (existsb (joins (is_directed G) u v) (edges G) = true)
      by (apply existsb_exists; eauto).
    congruence. }
  rewrite Hk. exists k. cbn. now rewrite He.
Qed.

Lemma add_edges_from_keeps G u v key d :
  is_directed (add_edges_from G u v key d) = is_directed G
  /\ is_multigraph (add_edges_from G u v key d) = is_multigraph G
  /\ (Forall (fun ed => ekey ed <> None) (edges G) ->
      Forall (fun ed => ekey ed <> None) (edges (add_edges_from G u v key d))).
Proof.
  unfold add_edges_from.
  destruct (edges_add_edges_from_nodes G u v) as (He & Hd & Hm).
  set (G2 := add_edges_from_nodes G u v) in *.
  destruct (existsb _ (edges G2)); cbn; (split; [assumption|]); (split; [assumption|]);
    rewrite He; intros HF.
  - apply Forall_forall. intros ed Hin. apply in_map_iff in Hin.
    destruct Hin as (e0 & <- & Hin0). rewrite Forall_forall in HF.
    destruct (has_key _ u v _ e0); cbn; auto.
  - apply Forall_app. split; [assumption|]. constructor; [discriminate | constructor].
Qed.

Definition ends (ed : edge) : pyval * pyval := (src ed, dst ed).

Lemma pairs_of_app es es' :
  pairs_of node_type (es ++ es') = pairs_of node_type es ++ pairs_of node_type es'.
Proof. unfold pairs_of. apply flat_map_app. Qed.

Lemma ids_of_app es es' :
  ids_of node_type (es ++ es') = ids_of node_type es ++ ids_of node_type es'.
Proof. unfold ids_of. apply flat_map_app. Qed.

Lemma pairs_of_decoded keys done eds :
  Forall2 (decoded_as node_type keys) done eds ->
  pairs_of node_type done = map ends eds.
Proof.
  induction 1 as [|e ed done eds (dta & _ & He & _) _ IH]; [reflexivity|].
  change (pairs_of node_type (e :: done))
    with (match endpoints node_type e with Some p => [p] | None => [] end
            ++ pairs_of node_type done).
  rewrite He, IH. reflexivity.
Qed.

Lemma has_edge_pairs (G : nxgraph) s t :
  has_edge G s t
  = existsb (fun q => same_pair (is_directed G) (s, t) q) (map ends (edges G)).
Proof.
  unfold has_edge. induction (edges G) as [|ed eds IH]; [reflexivity|].
  cbn [existsb map]. rewrite IH. f_equal.
Qed.

Lemma ids_in_pairs es p id :
  In (p, id) (ids_of node_type es) -> In p (pairs_of node_type es).
Proof.
  unfold ids_of, pairs_of. rewrite !in_flat_map.
  intros (e & Hin & H). exists e. split; [assumption|].
  destruct (endpoints node_type e) as [q|]; [|destruct H].
  destruct (edge_id_of e); [|destruct H].
  destruct H as [H|[]]. inversion H; subst. now left.
Qed.

Lemma pairs_plain es : Forall plain_pair (pairs_of node_type es).
Proof.
  apply Forall_forall. intros p Hin. unfold pairs_of in Hin.
  apply in_flat_map in Hin. destruct Hin as (e & _ & H).
  destruct (endpoints node_type e) as [q|] eqn:E; [|destruct H].
  destruct H as [->|[]]. eapply endpoints_plain; eauto.
Qed.

Lemma pairs_of_one e p :
  endpoints node_type e = Some p -> pairs_of node_type [e] = [p].
Proof. intros H. unfold pairs_of. cbn. now rewrite H. Qed.

Lemma ids_of_one e p :
  endpoints node_type e = Some p ->
  ids_of node_type [e]
  = match edge_id_of e with Some id => [(p, id)] | None => [] end.
Proof.
  intros H. unfold ids_of. cbn. rewrite H.
  destruct (edge_id_of e); reflexivity.
Qed.

Lemma edge_inv_step d keys done e s s' :
  edge_inv node_type d keys done s ->
  (let '(G, st) := s in add_edge node_type edge_key_type st G e keys) = Ok s' ->
  edge_inv node_type d keys (done ++ [e]) s'.
Proof.
  destruct s as [G st], s' as [G' st'].
  intros (Hd & Hm & Hflag & Hlen & Hkeys & Hsimple) H.
  apply add_edge_ok in H.
  destruct H as (s & t & dta & key & Hends & Hdata & -> & Hflag' & Hids').
  cbn [fst snd] in *.
  destruct (add_edges_from_keeps G s t key dta) as (Kd & Km & Kk).
  assert (Hp : pairs_of node_type (done ++ [e]) = pairs_of node_type done ++ [(s, t)]).
  { now rewrite pairs_of_app, (pairs_of_one e _ Hends). }
  assert (Hdup : multigraph st = false ->
                 has_edge G s t
                 = existsb (fun q => same_pair d (s, t) q) (pairs_of node_type done)).
  { intros Hf. destruct (Hsimple Hf) as [HF2 _].
    rewrite (pairs_of_decoded _ _ _ HF2), has_edge_pairs, Hd. reflexivity. }
  unfold edge_inv. cbn [fst snd].
  split; [congruence|]. split; [congruence|].
  split.
  { rewrite Hflag', Hp, has_dup_snoc, <- Hflag.
    destruct (multigraph st) eqn:Hf; [reflexivity|]. cbn. now apply Hdup. }
  split; [rewrite Hp, !length_app, Hlen; reflexivity|].
  split; [auto|].
  rewrite Hflag'. intros Hf. apply orb_false_iff in Hf. destruct Hf as [Hf Hno].
  destruct (Hsimple Hf) as [HF2 Hids].
  destruct (add_edges_from_new G s t key dta Hno) as [k ->].
  split.
  - apply Forall2_app; [assumption|]. constructor; [|constructor].
    exists dta. cbn. auto.
  - rewrite Hids', ids_of_app, (ids_of_one e _ Hends).
    destruct (edge_id_of e) as [id|]; cbn; [|now rewrite app_nil_r].
    rewrite Hids. apply dict_set_absent.
    destruct (dict_get pair_eqb (ids_of node_type done) (s, t)) as [x|] eqn:E;
      [exfalso|reflexivity].
    apply dict_get_found in E. destruct E as (q & Hin & Hq).
    apply ids_in_pairs in Hin.
    assert (Hs : same_pair d (s, t) q = true).
    { apply pair_eqb_same; [eapply endpoints_plain; eauto | | exact Hq].
      pose proof (pairs_plain done) as HP. rewrite Forall_forall in HP. auto. }
    rewrite (Hdup Hf) in Hno.
    assert (existsb (fun q0 => same_pair d (s, t) q0) (pairs_of node_type done) = true)
      by (apply existsb_exists; eauto).
    congruence.
Qed.

(** *** The downgrade *)

Lemma has_dup_later d l1 p l2 q :
  has_dup d (l1 ++ p :: l2) = false -> In q l1 -> same_pair d p q = false.
Proof.
  intros H Hin. apply not_true_is_false. intros Hs.
  apply in_split in Hin. destruct Hin as (a & b & ->).
  assert (duplicate_pair d ((a ++ q :: b) ++ p :: l2)).
  { exists a, q, b, p, l2. split; [now rewrite <- app_assoc | exact Hs]. }
  apply has_dup_duplicate in H0. congruence.
Qed.

Lemma has_dup_tail d q l : has_dup d (q :: l) = false ->
  has_dup d l = false /\ forall p, In p l -> same_pair d p q = false.
Proof.
  cbn. intros H. apply orb_false_iff in H. destruct H as [H1 H2].
  split; [assumption|]. intros p Hp.
  apply not_true_is_false. intros Hs.
  assert (existsb (fun p0 => same_pair d p0 q) l = true)
    by (apply existsb_exists; eauto).
  congruence.
Qed.

Definition strip (ed : edge) : edge := Edge (src ed) (dst ed) None (edata ed).

Lemma joins_pair d (p : pyval * pyval) ed :
  joins d (fst p) (snd p) ed = same_pair d p (ends ed).
Proof. reflexivity. Qed.

Lemma collapse_nodup d es acc :
  has_dup d (map ends (acc ++ es)) = false ->
  collapse d es acc = acc ++ map strip es.
Proof.
  revert acc. induction es as [|e es IH]; intros acc H; cbn [collapse map].
  - now rewrite app_nil_r.
  - assert (Hno : existsb (joins d (src e) (dst e)) acc = false).
    { apply not_true_is_false. intros Hex.
      apply existsb_exists in Hex. destruct Hex as (a & Hin & Hj).
      rewrite map_app in H. cbn [map] in H.
      apply (has_dup_later d _ _ _ (ends a)) in H; [|now apply in_map].
      change (joins d (src e) (dst e) a) with (same_pair d (ends e) (ends a)) in Hj.
      congruence. }
    rewrite Hno, IH.
    + now rewrite <- app_assoc.
    + rewrite <- app_assoc. cbn [app].
      rewrite !map_app in *. cbn [map] in *. exact H.
Qed.

(** One entry of [values] applied to one edge. *)
Definition set_id (d : bool) (name : string) (v : (pyval * pyval) * pyval)
           (e : edge) : edge :=
  let '((u, w), value) := v in
  if joins d u w e
  then Edge (src e) (dst e) (ekey e) (dict_set String.eqb (edata e) name value)
  else e.

Lemma set_edge_attributes_spec G values name :
  is_directed (set_edge_attributes G values name) = is_directed G
  /\ is_multigraph (set_edge_attributes G values name) = is_multigraph G
  /\ edges (set_edge_attributes G values name)
     = fold_left (fun eds v => map (set_id (is_directed G) name v) eds)
                 values (edges G).
Proof.
  unfold set_edge_attributes. revert G.
  induction values as [|[[u w] value] values IH]; intros G; cbn [fold_left];
    [repeat split|].
  match goal with
  | |- context [fold_left ?f values ?G1] =>
      destruct (IH G1) as (I1 & I2 & I3)
  end.
  rewrite I1, I2, I3. cbn. repeat split.
Qed.

Lemma fold_set_id_cons d name values e eds :
  fold_left (fun eds v => map (set_id d name v) eds) values (e :: eds)
  = fold_left (fun e v => set_id d name v e) values e
      :: fold_left (fun eds v => map (set_id d name v) eds) values eds.
Proof.
  revert e eds. induction values as [|v values IH]; intros e eds; cbn; [reflexivity|].
  apply IH.
Qed.

Lemma fold_set_id_none d name (values : list ((pyval * pyval) * pyval)) e :
  (forall q value, In (q, value) values -> joins d (fst q) (snd q) e = false) ->
  fold_left (fun e v => set_id d name v e) values e = e.
Proof.
  revert e. induction values as [|[[u w] value] values IH]; intros e H; cbn; [reflexivity|].
  pose proof (H (u, w) value (or_introl eq_refl)) as Hj. cbn in Hj. rewrite Hj.
  apply IH. intros q v Hin. apply (H q v). now right.
Qed.

Lemma map_set_id_none d name (v : (pyval * pyval) * pyval) eds :
  (forall e, In e eds -> joins d (fst (fst v)) (snd (fst v)) e = false) ->
  map (set_id d name v) eds = eds.
Proof.
  destruct v as [[u w] value]. cbn. intros H.
  induction eds as [|e eds IH]; cbn; [reflexivity|].
  rewrite (H e (or_introl eq_refl)), IH; [reflexivity|].
  intros e' He'. apply H. now right.
Qed.

Definition id_value (v : (pyval * pyval) * string) : (pyval * pyval) * pyval :=
  let '(uv, id) := v in (uv, VStr id).

(** The ids are reattached, each to its own edge. *)
Lemma reattach d keys es eds :
  has_dup d (pairs_of node_type es) = false ->
  Forall2 (decoded_as node_type keys) es eds ->
  Forall2 (downgraded node_type keys) es
          (fold_left (fun eds v => map (set_id d "id" v) eds)
                     (map id_value (ids_of node_type es)) (map strip eds)).
Proof.
  intros Hnd HF. revert Hnd.
  induction HF as [|e ed es eds (dta & Hdata & Hends & Hdta) HF IH]; intros Hnd;
    [constructor|].
  pose proof (pairs_of_decoded keys es eds HF) as Hpairs.
  change (e :: es) with ([e] ++ es) in Hnd |- *.
  rewrite pairs_of_app, (pairs_of_one e _ Hends) in Hnd. cbn [app] in Hnd.
  destruct (has_dup_tail d _ _ Hnd) as [Hnd' Hlater].
  pose proof (endpoints_plain e _ Hends) as Hpl.
  rewrite ids_of_app, (ids_of_one e _ Hends), map_app, fold_left_app.
  cbn [map strip].
  set (own := match edge_id_of e with
              | Some id => [((src ed, dst ed), id)]
              | None => []
              end).
  assert (Hown : fold_left (fun eds v => map (set_id d "id" v) eds)
                           (map id_value own) (strip ed :: map strip eds)
                 = simple_edge (src ed, dst ed) dta (edge_id_of e) :: map strip eds).
  { unfold own. destruct (edge_id_of e) as [id|]; cbn [map fold_left id_value].
    - f_equal.
      + unfold set_id. cbv beta iota.
        change (joins d (src ed) (dst ed) (strip ed))
          with (same_pair d (src ed, dst ed) (src ed, dst ed)).
        rewrite (same_pair_refl d _ Hpl). unfold strip, simple_edge. cbn.
        now rewrite Hdta.
      + apply (map_set_id_none d "id" ((src ed, dst ed), VStr id)).
        intros e' He'. cbn [fst snd]. apply in_map_iff in He'.
        destruct He' as (e0 & <- & Hin0).
        change (joins d (src ed) (dst ed) (strip e0))
          with (same_pair d (src ed, dst ed) (ends e0)).
        assert (Hin : In (ends e0) (pairs_of node_type es))
          by (rewrite Hpairs; now apply in_map).
        rewrite same_pair_sym; [now apply Hlater | exact Hpl |].
        pose proof (pairs_plain es) as HP. rewrite Forall_forall in HP. auto.
    - unfold strip, simple_edge. cbn. now rewrite Hdta. }
  rewrite Hown, fold_set_id_cons. constructor.
  - exists (src ed, dst ed), dta. split; [exact Hends|]. split; [exact Hdata|].
    apply fold_set_id_none. intros q value Hin.
    apply in_map_iff in Hin. destruct Hin as ([q' id'] & E & Hin).
    cbn in E. injection E as Eq _. subst q'.
    apply ids_in_pairs in Hin.
    change (joins d (fst q) (snd q) (simple_edge (src ed, dst ed) dta (edge_id_of e)))
      with (same_pair d q (src ed, dst ed)).
    now apply Hlater.
  - apply IH. exact Hnd'.
Qed.

(** *** The graph before its edges *)

Lemma add_default_graph keys G kv G' :
  add_default keys G kv = Ok G' -> exists g, G' = set_graph G g.
Proof.
  unfold add_default. destruct kv as [key_id value].
  destruct (dict_get _ keys key_id) as [info|]; [|discriminate].
  intros H.
  assert (Hupd : forall bag G1 G2,
             (v <- construct (k_type info) value ;;
              match dict_get String.eqb (graph G1) bag with
              | Some (GDict d) =>
                  Ok (set_graph G1 (dict_set String.eqb (graph G1) bag
                                      (GDict (dict_set String.eqb d (k_name info) v))))
              | _ => Raise AttributeError
              end) = Ok G2 -> exists g, G2 = set_graph G1 g).
  { intros bag G1 G2 H1. inv_ok.
    destruct (dict_get String.eqb (graph G1) bag) as [[|]|]; inv_ok. eauto. }
  apply bind_ok in H. destruct H as (G1 & H1 & H2).
  assert (E1 : exists g, G1 = set_graph G g).
  { destruct (option_eqb String.eqb (k_for info) (Some "node"));
      [eapply Hupd; eauto | inversion H1; subst; exists (graph G1); now destruct G1]. }
  destruct E1 as [g1 ->].
  destruct (option_eqb String.eqb (k_for info) (Some "edge")).
  - destruct (Hupd _ _ _ H2) as [g2 ->]. exists g2. reflexivity.
  - inversion H2; subst. eauto.
Qed.

(** What the loops before the edges keep. *)
Definition before_edges (d : bool) (s : nxgraph * state) : Prop :=
  is_directed (fst s) = d /\ is_multigraph (fst s) = true
  /\ edges (fst s) = []
  /\ multigraph (snd s) = false /\ edge_ids (snd s) = [].

Lemma before_edges_add_node d st G n keys s' :
  before_edges d (G, st) ->
  add_node node_type st G n keys = Ok s' ->
  before_edges d s'.
Proof.
  intros (H1 & H2 & H3 & H4 & H5). unfold add_node. cbv zeta. intros H. inv_ok.
  unfold before_edges, nx.add_node. cbn [fst snd] in *.
  destruct (find n (qname NS_GRAPHML "port"));
    destruct (dict_get py_eqb (nodes G) a); cbn; subst; repeat split; assumption.
Qed.

End Downgrade.

(** ** The writer *)

(** *** The registry *)

Section Registry.
Context {B : Builtins}.
Import GraphML GraphMLWriter.

Lemma registry_ok_init (infer : bool) : registry_ok (init infer).
Proof. split; cbn; constructor. Qed.

Lemma get_key_known (w : writer) n t s d id :
  dict_get keys_key_eqb (keys w) (n, t, s) = Some id ->
  get_key w n t s d = (id, w).
Proof. unfold get_key. now intros ->. Qed.

Lemma get_key_new (w : writer) n t s d :
  dict_get keys_key_eqb (keys w) (n, t, s) = None ->
  get_key w n t s d =
    (key_id (List.length (keys w)),
     Writer (infer_numeric_types w)
            (key_element (key_id (List.length (keys w))) s n t d :: xml w)
            (keys w ++ [((n, t, s), key_id (List.length (keys w)))])
            (attribute_types w)).
Proof.
  unfold get_key. intros H. rewrite H.
  now rewrite (dict_set_absent keys_key_eqb _ _ _ H).
Qed.

Lemma registry_ok_get_key (w : writer) n t s d :
  registry_ok w -> registry_ok (snd (get_key w n t s d)).
Proof.
  intros [Hids Hnd].
  destruct (dict_get keys_key_eqb (keys w) (n, t, s)) as [id|] eqn:E.
  - rewrite (get_key_known _ _ _ _ _ _ E). now split.
  - rewrite (get_key_new _ _ _ _ _ E). unfold registry_ok. cbn [snd keys]. split.
    + rewrite length_app, Nat.add_comm. cbn [List.length Nat.add].
      rewrite seq_S, !map_app, Hids. reflexivity.
    + rewrite map_app. apply NoDup_app; [assumption | repeat constructor; auto |].
      intros x Hx [<-|[]].
      apply (dict_get_None _ keys_key_eqb_eq) in E. contradiction.
Qed.

Lemma evolves_refl (w : writer) : evolves w w.
Proof. split; [exists []; now rewrite app_nil_r | auto]. Qed.

Lemma evolves_trans (w1 w2 w3 : writer) :
  evolves w1 w2 -> evolves w2 w3 -> evolves w1 w3.
Proof.
  intros ([l1 H1] & Hok1 & Hi1) ([l2 H2] & Hok2 & Hi2).
  split; [|split].
  - exists (l1 ++ l2). now rewrite H2, H1, app_assoc.
  - auto.
  - congruence.
Qed.

Lemma evolves_get_key (w : writer) n t s d : evolves w (snd (get_key w n t s d)).
Proof.
  split; [|split].
  - destruct (dict_get keys_key_eqb (keys w) (n, t, s)) as [id|] eqn:E.
    + rewrite (get_key_known _ _ _ _ _ _ E). exists []. now rewrite app_nil_r.
    + rewrite (get_key_new _ _ _ _ _ E). cbn. eauto.
  - apply registry_ok_get_key.
  - unfold get_key. now destruct (dict_get _ _ _).
Qed.

Lemma evolves_observe (w : writer) n s t : evolves w (observe w n s t).
Proof. split; [exists []; cbn; now rewrite app_nil_r | split; auto]. Qed.

Lemma evolves_add_data (w : writer) n ty v s d e w' :
  add_data w n ty v s d = Ok (e, w') -> evolves w w'.
Proof.
  unfold add_data. destruct (dict_get pytype_eqb xml_type ty) as [t|]; [|discriminate].
  pose proof (evolves_get_key w n t s d) as H.
  destruct (get_key w n t s d) as [id w1]. intros E. inversion E; subst. exact H.
Qed.

(** A loop whose rounds evolve the writer evolves it. *)
Lemma evolves_for_each {S X : Type} (proj : S -> writer)
      (body : S -> X -> result S) (xs : list X) :
  (forall s x s', body s x = Ok s' -> evolves (proj s) (proj s')) ->
  forall s s', for_each body xs s = Ok s' -> evolves (proj s) (proj s').
Proof.
  intros Hb. induction xs as [|x xs IH]; intros s s' H; cbn in H.
  - inversion H. apply evolves_refl.
  - inv_ok. eapply evolves_trans; eauto.
Qed.

Lemma evolves_fold_left {X : Type} (f : writer -> X -> writer) (xs : list X) :
  (forall w x, evolves w (f w x)) ->
  forall w, evolves w (fold_left f xs w).
Proof.
  intros Hf. induction xs as [|x xs IH]; intros w; cbn.
  - apply evolves_refl.
  - eapply evolves_trans; [apply Hf | apply IH].
Qed.

Lemma registry_ids (w : writer) :
  registry_ok w ->
  NoDup (map snd (keys w))
  /\ forall i e, nth_error (keys w) i = Some e -> snd e = key_id i.
Proof.
  intros [Hids _]. split.
  - rewrite Hids. apply NoDup_map_NoDup_ForallPairs; [|apply seq_NoDup].
    intros a b _ _. apply key_id_inj.
  - intros i e He.
    assert (Hi : i < List.length (keys w)) by (apply nth_error_Some; congruence).
    apply (map_nth_error snd) in He. rewrite Hids in He.
    rewrite (nth_error_nth' _ (key_id 0)) in He by (rewrite length_map, length_seq; lia).
    rewrite (map_nth key_id), seq_nth in He by lia. now inversion He.
Qed.
End Registry.

(** *** The registry through an encode *)

Section RegistryEncode.
Context {B : Builtins}.
Import GraphML GraphMLWriter.

Ltac evolves_loop proj :=
  match goal with
  | H : for_each _ _ _ = Ok _ |- _ =>
      apply (evolves_for_each proj) in H; [exact H|]
  end.

Create HintDb evolves.

(** Chains the evolutions the hypotheses give. *)
Ltac ev_chain :=
  repeat (eapply evolves_trans; [solve [eauto 2 with evolves]|]);
  try apply evolves_refl.

Lemma evolves_add_attributes scope obj data default w atts w' atts' :
  add_attributes scope obj data default (w, atts) = Ok (w', atts') -> evolves w w'.
Proof.
  unfold add_attributes. intros H. evolves_loop (@fst writer attributes_t).
  intros [w1 a1] [k v] [w2 a2] E. cbn. inv_ok. apply evolves_observe.
Qed.
#[local] Hint Resolve evolves_add_attributes : evolves.

Lemma evolves_add_nodes G w atts ch w' atts' ch' :
  add_nodes G (w, atts, ch) = Ok (w', atts', ch') -> evolves w w'.
Proof.
  unfold add_nodes. intros H.
  evolves_loop (fun st : build => fst (fst st)).
  intros [[w1 a1] c1] [i [node data]] [[w2 a2] c2] E. cbn. inv_ok. ev_chain.
Qed.
#[local] Hint Resolve evolves_add_nodes : evolves.

Lemma evolves_add_edges G w atts ch w' atts' ch' :
  add_edges G (w, atts, ch) = Ok (w', atts', ch') -> evolves w w'.
Proof.
  unfold add_edges. intros H.
  evolves_loop (fun st : build => fst (fst st)).
  intros [[w1 a1] c1] [i e] [[w2 a2] c2] E. cbn. inv_ok. ev_chain.
Qed.
#[local] Hint Resolve evolves_add_edges : evolves.
#[local] Hint Resolve evolves_add_data : evolves.

Lemma evolves_add_pending o w ap p w' ap' :
  add_pending o (w, ap) p = Ok (w', ap') -> evolves w w'.
Proof. unfold add_pending. intros H. inv_ok. ev_chain. Qed.
#[local] Hint Resolve evolves_add_pending : evolves.

Lemma evolves_add_all_pending atts w w' ap :
  add_all_pending atts w = Ok (w', ap) -> evolves w w'.
Proof.
  unfold add_all_pending. intros H.
  evolves_loop (@fst writer (list (obj * list welement))).
  intros [w1 a1] [o data] [w2 a2] E. cbn.
  evolves_loop (@fst writer (list (obj * list welement))).
  intros [w3 a3] p [w4 a4] E'. cbn. ev_chain.
Qed.
#[local] Hint Resolve evolves_add_all_pending : evolves.

Lemma evolves_add_graph_element w G w' G' :
  add_graph_element w G = Ok (w', G') -> evolves w w'.
Proof.
  unfold add_graph_element. destruct (pop_id G) as [graphid G1]. cbv zeta.
  intros H. inv_ok. ev_chain.
  split; [exists []; cbn; now rewrite app_nil_r | split; auto].
Qed.

Lemma evolves_lxml_add_attributes scope data default w ch w' ch' :
  GraphMLWriterLxml.add_attributes scope data default (w, ch) = Ok (w', ch') ->
  evolves w w'.
Proof.
  unfold GraphMLWriterLxml.add_attributes. intros H.
  evolves_loop (@fst writer (list welement)).
  intros [w1 a1] [k v] [w2 a2] E. cbn. inv_ok. ev_chain.
Qed.
#[local] Hint Resolve evolves_lxml_add_attributes : evolves.

Lemma evolves_lxml_add_nodes G w ch w' ch' :
  GraphMLWriterLxml.add_nodes G (w, ch) = Ok (w', ch') -> evolves w w'.
Proof.
  unfold GraphMLWriterLxml.add_nodes. intros H.
  evolves_loop (@fst writer (list welement)).
  intros [w1 a1] [node data] [w2 a2] E. cbn. inv_ok. ev_chain.
Qed.
#[local] Hint Resolve evolves_lxml_add_nodes : evolves.

Lemma evolves_lxml_add_edges G w ch w' ch' :
  GraphMLWriterLxml.add_edges G (w, ch) = Ok (w', ch') -> evolves w w'.
Proof.
  unfold GraphMLWriterLxml.add_edges. intros H.
  evolves_loop (@fst writer (list welement)).
  intros [w1 a1] e [w2 a2] E. cbn. inv_ok. ev_chain.
Qed.
#[local] Hint Resolve evolves_lxml_add_edges : evolves.

Lemma evolves_scan scope d w atts :
  evolves w (fst (GraphMLWriterLxml.scan scope (w, atts) d)).
Proof.
  unfold GraphMLWriterLxml.scan. revert w atts.
  induction d as [|[k v] d IH]; intros w atts; cbn; [apply evolves_refl|].
  eapply evolves_trans; [|apply IH]. apply evolves_observe.
Qed.

Lemma evolves_make_keys scope default atts w w' :
  GraphMLWriterLxml.make_keys scope default atts w = Ok w' -> evolves w w'.
Proof.
  unfold GraphMLWriterLxml.make_keys. intros H.
  evolves_loop (fun w : writer => w).
  intros w1 [k v] w2 E. inv_ok. apply evolves_get_key.
Qed.
#[local] Hint Resolve evolves_make_keys : evolves.

Lemma evolves_fold_pair {X A : Type} (g : writer * A -> X -> writer * A)
      (xs : list X) :
  (forall st x, evolves (fst st) (fst (g st x))) ->
  forall st, evolves (fst st) (fst (fold_left g xs st)).
Proof.
  intros Hg. induction xs as [|x xs IH]; intros st; cbn [fold_left];
    [apply evolves_refl|].
  eapply evolves_trans; [apply Hg | apply IH].
Qed.

Lemma evolves_scan_graph data w : evolves w (GraphMLWriterLxml.scan_graph data w).
Proof.
  apply evolves_fold_left. intros w0 [k v]. apply evolves_observe.
Qed.

Lemma evolves_graph_keys data w w' :
  GraphMLWriterLxml.graph_keys data w = Ok w' -> evolves w w'.
Proof.
  unfold GraphMLWriterLxml.graph_keys. intros H.
  evolves_loop (fun w : writer => w).
  intros w1 [k v] w2 E. inv_ok. apply evolves_get_key.
Qed.
#[local] Hint Resolve evolves_graph_keys : evolves.

Lemma evolves_scan_nodes G w : evolves w (fst (GraphMLWriterLxml.scan_nodes G w)).
Proof.
  unfold GraphMLWriterLxml.scan_nodes.
  apply (evolves_fold_pair _ (nodes G) ) with (st := (w, [])).
  intros [w0 a0] [node d]. apply evolves_scan.
Qed.

Lemma evolves_scan_edges G w : evolves w (fst (GraphMLWriterLxml.scan_edges G w)).
Proof.
  unfold GraphMLWriterLxml.scan_edges. destruct (is_multigraph G).
  - apply (evolves_fold_pair _ (edges G)) with (st := (w, [])).
    intros [w0 a0] e. cbv zeta.
    eapply evolves_trans; [apply evolves_observe | apply evolves_scan].
  - apply (evolves_fold_pair _ (edges G)) with (st := (w, [])).
    intros [w0 a0] e. apply evolves_scan.
Qed.

Lemma evolves_lxml_add_graph_element w G w' written G' :
  GraphMLWriterLxml.add_graph_element w G = Ok (w', written, G') -> evolves w w'.
Proof.
  unfold GraphMLWriterLxml.add_graph_element.
  destruct (pop_id G) as [graphid G1]. cbv zeta.
  intros H. apply bind_ok in H. destruct H as (w1 & H1 & H).
  pose proof (evolves_scan_graph (graph_data G1) w) as E0.
  pose proof (evolves_scan_nodes G1 w1) as E2.
  destruct (GraphMLWriterLxml.scan_nodes G1 w1) as [w2 a2]. cbn [fst] in E2.
  apply bind_ok in H. destruct H as (w3 & H3 & H).
  pose proof (evolves_scan_edges G1 w3) as E4.
  destruct (GraphMLWriterLxml.scan_edges G1 w3) as [w4 a4]. cbn [fst] in E4.
  inv_ok. ev_chain.
Qed.
End RegistryEncode.

(** *** Type inference *)

Section Inference.
Context {B : Builtins}.
Import GraphML GraphMLWriter.

Lemma set_in_In (t : pytype) (s : list pytype) : set_in t s = true <-> In t s.
Proof.
  unfold set_in. rewrite existsb_exists. split.
  - intros (x & Hx & E). apply pytype_eqb_eq in E. now subst.
  - intros H. exists t. split; [assumption | now apply pytype_eqb_eq].
Qed.

Lemma set_in_false (t : pytype) (s : list pytype) : set_in t s = false <-> ~ In t s.
Proof.
  rewrite <- set_in_In. destruct (set_in t s); split; congruence.
Qed.

Lemma set_add_NoDup (s : list pytype) (t : pytype) :
  NoDup s -> NoDup (set_add s t).
Proof.
  intros H. unfold set_add.
  destruct (existsb (pytype_eqb t) s) eqn:E; [assumption|].
  apply NoDup_app; [assumption | repeat constructor; auto |].
  intros x Hx [<-|[]].
  change (set_in t s = false) in E. now apply set_in_false in E.
Qed.

(** The sets the writer keeps have no repetition. *)
Lemma observe_NoDup (w : writer) n s t :
  (forall n' s', NoDup (types_of w n' s')) ->
  forall n' s', NoDup (types_of (observe w n s t) n' s').
Proof.
  intros H n' s'. unfold types_of, observe. cbn [attribute_types].
  destruct (name_scope_eqb (n', s') (n, s)) eqn:E.
  - apply name_scope_eqb_eq in E. inversion E; subst.
    rewrite (dict_get_set_same _ name_scope_eqb_eq).
    apply set_add_NoDup, H.
  - rewrite (dict_get_set_other _ name_scope_eqb_eq).
    + apply H.
    + intros E'. rewrite E' in E.
      now rewrite (eqb_refl_of _ name_scope_eqb_eq) in E.
Qed.

Lemma only_bool_short (s : list pytype) :
  NoDup s -> Forall (fun t => t = Tbool) s -> List.length s <= 1.
Proof.
  intros Hnd Hall. destruct s as [|a [|b s]]; cbn; try lia.
  inversion Hall as [|? ? Ha Hall']; subst. inversion Hall' as [|? ? Hb _]; subst.
  inversion Hnd as [|? ? Hn _]; subst. exfalso. apply Hn. now left.
Qed.

Lemma attr_type_precedence (w : writer) (name scope : string) (value : pyval) :
  infer_numeric_types w = true ->
  1 < List.length (types_of w name scope) ->
  NoDup (types_of w name scope) ->
  Forall supported (types_of w name scope) ->
  exists t, attr_type w name scope value = Ok t
            /\ In t (types_of w name scope)
            /\ Forall (fun t' => rank t' <= rank t) (types_of w name scope).
Proof.
  intros Hinf Hlen Hnd Hsup. unfold attr_type. rewrite Hinf. cbv zeta.
  apply Nat.ltb_lt in Hlen. rewrite Hlen.
  set (types := types_of w name scope) in *.
  destruct (set_in Tstr types) eqn:Es.
  { exists Tstr. split; [reflexivity|]. split; [now apply set_in_In|].
    apply Forall_forall. intros t' _. destruct t'; cbn; lia. }
  apply set_in_false in Es.
  destruct (set_in Tfloat types) eqn:Ef.
  { exists Tfloat. split; [reflexivity|]. split; [now apply set_in_In|].
    apply Forall_forall. intros t' Ht'. destruct t'; cbn; try lia.
    contradiction. }
  apply set_in_false in Ef.
  destruct (set_in Tint types) eqn:Ei.
  { exists Tint. split; [reflexivity|]. split; [now apply set_in_In|].
    apply Forall_forall. intros t' Ht'. destruct t'; cbn; try lia; contradiction. }
  apply set_in_false in Ei. exfalso.
  apply Nat.ltb_lt in Hlen.
  assert (Hb : Forall (fun t => t = Tbool) types).
  { apply Forall_forall. intros t Ht.
    rewrite Forall_forall in Hsup.
    destruct (Hsup t Ht) as [->|[->|[->| ->]]]; try contradiction. reflexivity. }
  pose proof (only_bool_short types Hnd Hb). lia.
Qed.


(** C2 (where the code departs from it).  With inference enabled, an
    attribute seen as [True] on one node and [None] on another has the two
    classes [bool] and [NoneType]; [attr_type] falls through to its last
    branch and gives [int], a class that was not observed: the document
    declares the key as [long] and carries the texts [True] and [None].
    Without inference the same graph is refused with a [NetworkXError]. *)
Theorem inference_unobserved_type :
  (let w := observe (observe (init true) "flag" "node" Tbool)
                    "flag" "node" (Tother "NoneType") in
   types_of w "flag" "node" = [Tbool; Tother "NoneType"]
   /\ attr_type w "flag" "node" (VBool true) = Ok Tint
   /\ ~ In Tint (types_of w "flag" "node"))
  /\ write_graphml_xml true flag_graph
     = Ok (document
             [key_element "d0" "node" "flag" "long" None;
              WElement "graph" [("edgedefault", VStr "undirected")] None
                [WElement "node" [("id", VStr "a")] None
                   [WElement "data" [("key", VStr "d0")] (Some "True") []];
                 WElement "node" [("id", VStr "b")] None
                   [WElement "data" [("key", VStr "d0")] (Some "None") []]]],
           flag_graph)
  /\ exists msg, write_graphml_xml false flag_graph = Raise (NetworkXError msg).
Proof.
  split; [|split].
  - cbv zeta. split; [reflexivity|]. split; [reflexivity|].
    cbn. intros [H|[H|[]]]; discriminate H.
  - reflexivity.
  - eexists. reflexivity.
Qed.
End Inference.

(** *** The graph id *)

Section GraphId.
Context {B : Builtins}.
Import GraphML GraphMLWriter.

Lemma pop_id_present (G : nxgraph) (v : gval) :
  dict_get String.eqb (graph G) "id" = Some v ->
  graph_attrib (snd (pop_id G)) (fst (pop_id G))
  = ("edgedefault", VStr (if is_directed G then "directed" else "undirected"))
      :: id_attrib v
  /\ snd (pop_id G) = set_graph G (dict_del String.eqb (graph G) "id").
Proof.
  intros Hid. unfold pop_id, id_attrib. rewrite Hid. cbn [fst snd].
  split; [|reflexivity].
  unfold graph_attrib. destruct (as_obj v); reflexivity.
Qed.

(** C9 (as the code has it).  Where the graph has a graph attribute [id],
    an encode that returns, buffered or streaming, leaves the graph without
    that attribute and with every other graph attribute as it was; the graph
    element it emits carries the value as its [id], unless the value is
    [None], in which case it carries no [id]. *)
Theorem graph_id_consumed (G : nxgraph) (v : gval) :
  NoDup (map fst (graph G)) ->
  dict_get String.eqb (graph G) "id" = Some v ->
  let attrib :=
    ("edgedefault", VStr (if is_directed G then "directed" else "undirected"))
      :: id_attrib v in
  let after := set_graph G (dict_del String.eqb (graph G) "id") in
  dict_get String.eqb (graph after) "id" = None
  /\ (forall k, k <> "id" ->
                dict_get String.eqb (graph after) k = dict_get String.eqb (graph G) k)
  /\ (forall w w' G',
         add_graph_element w G = Ok (w', G') ->
         G' = after
         /\ exists pre ch, xml w' = pre ++ [WElement "graph" attrib None ch])
  /\ (forall w w' written G',
         GraphMLWriterLxml.add_graph_element w G = Ok (w', written, G') ->
         G' = after
         /\ exists pre ch, written = pre ++ [WElement "graph" attrib None ch]).
Proof.
  intros Hnd Hid attrib after.
  destruct (pop_id_present G v Hid) as [Hattr Hafter].
  split; [|split; [|split]].
  - apply (dict_get_del_same _ String.eqb_eq). exact Hnd.
  - intros k Hk. apply (dict_get_del_other _ String.eqb_eq). exact Hk.
  - intros w w' G'. unfold add_graph_element.
    destruct (pop_id G) as [graphid G1]. cbn [fst snd] in *. subst G1.
    cbv zeta. intros H. inv_ok.
    split; [reflexivity|]. cbn [xml]. rewrite Hattr. eauto.
  - intros w w' written G'. unfold GraphMLWriterLxml.add_graph_element.
    destruct (pop_id G) as [graphid G1]. cbn [fst snd] in *. subst G1.
    cbv zeta. intros H.
    apply bind_ok in H. destruct H as (w1 & _ & H).
    destruct (GraphMLWriterLxml.scan_nodes _ w1) as [w2 a2].
    apply bind_ok in H. destruct H as (w3 & _ & H).
    destruct (GraphMLWriterLxml.scan_edges _ w3) as [w4 a4].
    inv_ok. split; [reflexivity|]. rewrite Hattr. eauto.
Qed.
End GraphId.

(** *** The two phases of the buffered encoder *)

Section Phases.
Context {B : Builtins}.
Import GraphML GraphMLWriter.

Lemma observes_refl w : observes w w.
Proof. repeat split. Qed.

Lemma observes_trans w1 w2 w3 : observes w1 w2 -> observes w2 w3 -> observes w1 w3.
Proof. intros (A1 & A2 & A3) (C1 & C2 & C3). repeat split; congruence. Qed.

Lemma observes_observe w n s t : observes w (observe w n s t).
Proof. repeat split. Qed.

Lemma observes_for_each {S X : Type} (proj : S -> writer)
      (body : S -> X -> result S) (xs : list X) :
  (forall s x s', body s x = Ok s' -> observes (proj s) (proj s')) ->
  forall s s', for_each body xs s = Ok s' -> observes (proj s) (proj s').
Proof.
  intros Hb. induction xs as [|x xs IH]; intros s s' H; cbn in H.
  - inversion H. apply observes_refl.
  - inv_ok. eapply observes_trans; eauto.
Qed.

Lemma observes_add_attributes scope obj data default w atts w' atts' :
  add_attributes scope obj data default (w, atts) = Ok (w', atts') -> observes w w'.
Proof.
  unfold add_attributes. intros H.
  apply (observes_for_each (@fst writer attributes_t)) in H; [exact H|].
  intros [w1 a1] [k v] [w2 a2] E. cbn. inv_ok. apply observes_observe.
Qed.

Lemma observes_add_nodes G w atts ch w' atts' ch' :
  add_nodes G (w, atts, ch) = Ok (w', atts', ch') -> observes w w'.
Proof.
  unfold add_nodes. intros H.
  apply (observes_for_each (fun st : build => fst (fst st))) in H; [exact H|].
  intros [[w1 a1] c1] [i [node data]] [[w2 a2] c2] E. cbn. inv_ok.
  eapply observes_add_attributes; eauto.
Qed.

Lemma observes_add_edges G w atts ch w' atts' ch' :
  add_edges G (w, atts, ch) = Ok (w', atts', ch') -> observes w w'.
Proof.
  unfold add_edges. intros H.
  apply (observes_for_each (fun st : build => fst (fst st))) in H; [exact H|].
  intros [[w1 a1] c1] [i e] [[w2 a2] c2] E. cbn. inv_ok.
  eapply observes_add_attributes; eauto.
Qed.

Lemma registers_refl w : registers w w.
Proof. split; reflexivity. Qed.

Lemma registers_trans w1 w2 w3 : registers w1 w2 -> registers w2 w3 -> registers w1 w3.
Proof. intros (A1 & A2) (C1 & C2). split; congruence. Qed.

Lemma registers_get_key w n t s d : registers w (snd (get_key w n t s d)).
Proof. unfold get_key. destruct (dict_get _ _ _); split; reflexivity. Qed.

Lemma registers_add_data w n ty v s d e w' :
  add_data w n ty v s d = Ok (e, w') -> registers w w'.
Proof.
  unfold add_data. destruct (dict_get pytype_eqb xml_type ty) as [t|]; [|discriminate].
  pose proof (registers_get_key w n t s d) as H.
  destruct (get_key w n t s d) as [id w1]. intros E. inversion E; subst. exact H.
Qed.

Lemma registers_resolved w w' n s :
  registers w w' -> resolved w' n s = resolved w n s.
Proof.
  intros [Ht Hi]. unfold resolved, attr_type, types_of. now rewrite Ht, Hi.
Qed.

Lemma attr_type_infer w n s v :
  infer_numeric_types w = true -> attr_type w n s v = attr_type w n s VNone.
Proof. intros H. unfold attr_type. now rewrite H. Qed.

(** Registering the key of a pending entry keeps the registry typed. *)
Lemma typed_add_pending o w ap p w' ap' :
  infer_numeric_types w = true ->
  typed_registry w ->
  add_pending o (w, ap) p = Ok (w', ap') ->
  typed_registry w' /\ registers w w'.
Proof.
  intros Hinf HJ. unfold add_pending. intros H. inv_ok.
  rename a into ty.
  pose proof (registers_add_data _ _ _ _ _ _ _ _ Ha0) as Hreg.
  split; [|exact Hreg].
  unfold add_data in Ha0.
  destruct (dict_get pytype_eqb xml_type ty) as [t|] eqn:Et; [|discriminate].
  assert (Hres : resolved w (p_name p) (p_scope p) = Some t).
  { unfold resolved. rewrite <- (attr_type_infer w _ _ (p_value p) Hinf), Ha.
    exact Et. }
  intros n t' s id Hin. rewrite (registers_resolved _ _ _ _ Hreg).
  destruct (dict_get keys_key_eqb (keys w) (p_name p, t, p_scope p)) as [id0|] eqn:Ek.
  - rewrite (get_key_known _ _ _ _ _ _ Ek) in Ha0. inv_ok. eauto.
  - rewrite (get_key_new _ _ _ _ _ Ek) in Ha0. inv_ok. cbn [keys] in Hin.
    apply in_app_or in Hin. destruct Hin as [Hin|[Hin|[]]]; [eauto|].
    inversion Hin; subst. exact Hres.
Qed.

Lemma typed_add_all_pending atts w w' ap :
  infer_numeric_types w = true ->
  typed_registry w ->
  add_all_pending atts w = Ok (w', ap) ->
  typed_registry w' /\ registers w w'.
Proof.
  intros Hinf HJ H. unfold add_all_pending in H.
  set (Inv := fun st : writer * list (obj * list welement) =>
                typed_registry (fst st) /\ registers w (fst st)).
  assert (Hfinal : Inv (w', ap)).
  { apply (for_each_invariant _ Inv) in H; [exact H| |split; [exact HJ|apply registers_refl]].
    intros [w1 a1] [o data] [w2 a2] _ HI E.
    apply (for_each_invariant _ Inv) in E; [exact E| |exact HI].
    intros [w3 a3] p [w4 a4] _ [HJ3 HR3] E'. cbn in *.
    destruct (typed_add_pending o w3 a3 p w4 a4) as [HJ4 HR4]; auto.
    { destruct HR3 as [_ ->]. exact Hinf. }
    split; [exact HJ4 | eapply registers_trans; eauto]. }
  exact Hfinal.
Qed.

Lemma typed_pairs_NoDup w :
  typed_registry w -> NoDup (map fst (keys w)) -> NoDup (map entry_pair (keys w)).
Proof.
  intros HJ Hnd.
  replace (map entry_pair (keys w))
    with (map (fun k : keys_key => let '(n, _, s) := k in (n, s)) (map fst (keys w))).
  - apply NoDup_map_NoDup_ForallPairs; [|exact Hnd].
    intros [[n t] s] [[n' t'] s'] H1 H2 E. inversion E; subst.
    apply in_map_iff in H1. destruct H1 as ([k1 id1] & E1 & H1).
    apply in_map_iff in H2. destruct H2 as ([k2 id2] & E2 & H2).
    cbn in E1, E2. subst.
    pose proof (HJ _ _ _ _ H1) as R1. pose proof (HJ _ _ _ _ H2) as R2.
    congruence.
  - rewrite map_map. apply map_ext. intros [[[n t] s] id]. reflexivity.
Qed.

(** With inference, the buffered encoder of a new writer registers one key
    per (name, scope) pair. *)
Lemma inferred_pairs_NoDup G w' G' :
  add_graph_element (init true) G = Ok (w', G') ->
  NoDup (map entry_pair (keys w')).
Proof.
  intros H. pose proof (evolves_add_graph_element _ _ _ _ H) as (_ & Hok & _).
  specialize (Hok (registry_ok_init true)).
  unfold add_graph_element in H. destruct (pop_id G) as [graphid G1]. cbv zeta in H.
  inv_ok.
  apply observes_add_attributes in Ha.
  apply observes_add_nodes in Ha0.
  apply observes_add_edges in Ha1.
  pose proof (observes_trans _ _ _ Ha (observes_trans _ _ _ Ha0 Ha1)) as (Hk & _ & Hi).
  cbn in Hk, Hi.
  destruct (typed_add_all_pending a1 w1 w2 l1 Hi) as [HJ _]; [|exact Ha2|].
  { intros n t s id Hin. rewrite Hk in Hin. destruct Hin. }
  destruct Hok as [_ Hnd]. cbn [keys] in *.
  apply (typed_pairs_NoDup w2); [exact HJ | exact Hnd].
Qed.
End Phases.

(** *** The key table of the reader *)

Lemma find_graphml_keys_NoDup (xml : element) keys defs ws :
  GraphMLReader.find_graphml_keys xml = Ok (keys, defs, ws) ->
  NoDup (map fst keys).
Proof.
  unfold GraphMLReader.find_graphml_keys. intros H.
  apply (for_each_invariant _
           (fun acc : GraphMLReader.key_table * GraphMLReader.default_table * list string =>
              NoDup (map fst (fst (fst acc))))) in H;
    [exact H | | constructor].
  intros [[k1 d1] w1] k [[k2 d2] w2] _ Hnd E. cbn in *.
  unfold GraphMLReader.find_graphml_key in E.
  repeat match type of E with
         | context [match ?x with _ => _ end] =>
             destruct x eqn:?; try discriminate E
         end;
    inversion E; subst;
    apply (dict_set_NoDup _ option_string_eqb_eq); exact Hnd.
Qed.

Section RegistryClaim.
Context {B : Builtins}.
Import GraphML GraphMLWriter.

(** C4 (as the code has it).  The registry of a writer holds at most one
    entry per (name, type, scope) triple; the entry made [i]-th holds the
    identifier [d<i>], so identifiers follow the order of first sight and
    none is used twice; [get_key] gives a known triple its identifier back
    and a new triple the next one; both encoders keep this.  With inference
    the buffered encoder of a new writer has at most one entry per (name,
    scope) pair.  The key table of the reader has one entry per key id. *)
Theorem registry_invariant :
  (forall infer, registry_ok (init infer))
  /\ (forall w n t s d,
         registry_ok w ->
         registry_ok (snd (get_key w n t s d))
         /\ (exists l, keys (snd (get_key w n t s d)) = keys w ++ l)
         /\ (forall id, dict_get keys_key_eqb (keys w) (n, t, s) = Some id ->
                        get_key w n t s d = (id, w))
         /\ (dict_get keys_key_eqb (keys w) (n, t, s) = None ->
             fst (get_key w n t s d) = key_id (List.length (keys w))
             /\ keys (snd (get_key w n t s d))
                = keys w ++ [((n, t, s), key_id (List.length (keys w)))]))
  /\ (forall w,
         registry_ok w ->
         NoDup (map fst (keys w))
         /\ NoDup (map snd (keys w))
         /\ forall i e, nth_error (keys w) i = Some e -> snd e = key_id i)
  /\ (forall w G w' G',
         registry_ok w ->
         add_graph_element w G = Ok (w', G') ->
         registry_ok w' /\ exists l, keys w' = keys w ++ l)
  /\ (forall w G w' written G',
         registry_ok w ->
         GraphMLWriterLxml.add_graph_element w G = Ok (w', written, G') ->
         registry_ok w' /\ exists l, keys w' = keys w ++ l)
  /\ (forall G w' G',
         add_graph_element (init true) G = Ok (w', G') ->
         NoDup (map entry_pair (keys w')))
  /\ (forall xml table defs ws,
         GraphMLReader.find_graphml_keys xml = Ok (table, defs, ws) ->
         NoDup (map fst table)).
Proof.
  split; [exact registry_ok_init|].
  split.
  { intros w n t s d Hok.
    destruct (evolves_get_key w n t s d) as (Hl & Hk & _).
    split; [auto|]. split; [exact Hl|]. split.
    - intros id Hid. now apply get_key_known.
    - intros Hn. rewrite (get_key_new _ _ _ _ _ Hn). split; reflexivity. }
  split.
  { intros w Hok. destruct (registry_ids w Hok) as [H1 H2].
    split; [exact (proj2 Hok)|]. split; assumption. }
  split.
  { intros w G w' G' Hok H.
    destruct (evolves_add_graph_element _ _ _ _ H) as (Hl & Hk & _). auto. }
  split.
  { intros w G w' written G' Hok H.
    destruct (evolves_lxml_add_graph_element _ _ _ _ _ H) as (Hl & Hk & _). auto. }
  split; [exact inferred_pairs_NoDup | exact find_graphml_keys_NoDup].
Qed.
End RegistryClaim.

(** ** Witnesses and counterexamples *)

#[local] Existing Instance literal_builtins.

Lemma boolean_literals_witness :
  (exists e,
      GraphMLReader.call (B := literal_builtins)
        GraphMLReader.py_str GraphMLReader.py_int_conv GraphMLReader.init
        (Examples.flag_document "2") = Raise e)
  /\ GraphMLReader.decode_data_element (B := literal_builtins)
       Examples.flag_keys [] (Examples.data "k" "TRUE")
     = Ok [("flag", VBool true)].
Proof.
  split.
  - destruct (boolean_literals (B := literal_builtins)
                GraphMLReader.py_str GraphMLReader.py_int_conv
                (Examples.flag_document "2") (Examples.data "k" "2")
                Examples.flag_keys [] []
                (GraphMLReader.KeyInfo "flag" Tbool (Some "node")) "2"
                eq_refl eq_refl eq_refl eq_refl eq_refl)
      as (_ & _ & _ & H & _).
    apply H; [reflexivity|].
    exists (Element (Examples.ns "graph") [("edgedefault", "undirected")] None
                    [Examples.node "n0" [Examples.data "k" "2"]]).
    split; [cbn; auto|].
    right; left. exists (Examples.node "n0" [Examples.data "k" "2"]).
    split; cbn; auto.
  - destruct (boolean_literals (B := literal_builtins)
                GraphMLReader.py_str GraphMLReader.py_int_conv
                (Examples.flag_document "TRUE") (Examples.data "k" "TRUE")
                Examples.flag_keys [] []
                (GraphMLReader.KeyInfo "flag" Tbool (Some "node")) "TRUE"
                eq_refl eq_refl eq_refl eq_refl eq_refl)
      as (H & _).
    exact (H []).
Defined.

Lemma direction_mismatch_witness :
  exists err,
    GraphMLReader.call (B := literal_builtins)
      GraphMLReader.py_str GraphMLReader.py_int_conv GraphMLReader.init
      Examples.mixed_document = Raise err.
Proof.
  apply (direction_mismatch (B := literal_builtins)
           GraphMLReader.py_str GraphMLReader.py_int_conv
           Examples.mixed_document Examples.mixed_graph Examples.mixed_edge).
  - cbn. auto.
  - cbn. auto.
  - left. split; reflexivity.
Defined.

Lemma key_declarations_witness :
  exists e,
    GraphMLReader.call (B := literal_builtins)
      GraphMLReader.py_str GraphMLReader.py_int_conv GraphMLReader.init
      Examples.nameless_document = Raise e.
Proof.
  destruct (key_declarations (B := literal_builtins)
              GraphMLReader.py_str GraphMLReader.py_int_conv
              Examples.nameless_document Examples.nameless_key)
    as (H & _).
  - cbn. auto.
  - apply H; reflexivity.
Defined.

Lemma edge_key_priority_witness :
  GraphMLReader.edge_key (B := literal_builtins) GraphMLReader.py_int_conv
    (Some "7") [] = Ok (Some (VInt 7))
  /\ GraphMLReader.edge_key (B := literal_builtins) GraphMLReader.py_int_conv
       (Some "e7") [] = Ok (Some (VStr "e7"))
  /\ GraphMLReader.edge_key (B := literal_builtins) GraphMLReader.py_int_conv
       None [("key", VInt 3)] = Ok (Some (VInt 3)).
Proof.
  destruct (edge_key_priority (B := literal_builtins)
              GraphMLReader.py_str GraphMLReader.py_int_conv (Some "7") [])
    as (H1 & _).
  destruct (edge_key_priority (B := literal_builtins)
              GraphMLReader.py_str GraphMLReader.py_int_conv (Some "e7") [])
    as (H2 & _).
  destruct (edge_key_priority (B := literal_builtins)
              GraphMLReader.py_str GraphMLReader.py_int_conv None [("key", VInt 3)])
    as (_ & H3 & _).
  split; [|split].
  - apply (H1 "7" eq_refl); [discriminate | reflexivity].
  - apply (H2 "e7" eq_refl); [discriminate | reflexivity].
  - apply H3; [now left | reflexivity | discriminate].
Defined.

(** C6 as stated fails where the [id] attribute is present and empty: the
    conversion of the empty text raises [ValueError], so the key would be
    the empty text; the code takes the attribute for absent and the graph
    assigns the key 0. *)
Lemma edge_key_empty_id :
  get Examples.empty_id_edge "id" = Some ""
  /\ GraphMLReader.py_int_conv (B := literal_builtins) "" = Raise ValueError
  /\ exists G st,
      GraphMLReader.add_edge (B := literal_builtins)
        GraphMLReader.py_str GraphMLReader.py_int_conv GraphMLReader.init
        (empty_graph false true) Examples.empty_id_edge [] = Ok (G, st)
      /\ map ekey (edges G) = [Some (VInt 0)].
Proof.
  split; [reflexivity|]. split; [reflexivity|].
  eexists. eexists. split; reflexivity.
Qed.


Lemma graph_id_consumed_witness :
  (exists w' G',
      GraphMLWriter.add_graph_element (B := literal_builtins)
        (GraphMLWriter.init false) named_graph = Ok (w', G')
      /\ graph G' = [("name", GVal (VStr "roads"))]
      /\ exists pre ch,
          GraphMLWriter.xml w' =
            pre ++ [WElement "graph"
                             [("edgedefault", VStr "directed"); ("id", VStr "g7")]
                             None ch])
  /\ (exists w' written G',
         GraphMLWriterLxml.add_graph_element (B := literal_builtins)
           (GraphMLWriter.init false) named_graph = Ok (w', written, G')
         /\ graph G' = [("name", GVal (VStr "roads"))]
         /\ exists pre ch,
             written =
               pre ++ [WElement "graph"
                                [("edgedefault", VStr "directed"); ("id", VStr "g7")]
                                None ch]).
Proof.
  destruct (graph_id_consumed (B := literal_builtins) named_graph (GVal (VStr "g7")))
    as (_ & _ & H & HL).
  - cbn. repeat constructor; cbn; intuition discriminate.
  - reflexivity.
  - split.
    + destruct (GraphMLWriter.add_graph_element (B := literal_builtins)
                  (GraphMLWriter.init false) named_graph) as [[w' G']|] eqn:E;
        [|discriminate E].
      destruct (H _ _ _ E) as (-> & pre & ch & Hx).
      exists w', (set_graph named_graph
                    (dict_del String.eqb (graph named_graph) "id")).
      split; [reflexivity|]. split; [reflexivity|]. eauto.
    + destruct (GraphMLWriterLxml.add_graph_element (B := literal_builtins)
                  (GraphMLWriter.init false) named_graph)
        as [[[w' written] G']|] eqn:E; [|discriminate E].
      destruct (HL _ _ _ _ E) as (-> & pre & ch & Hx).
      exists w', written, (set_graph named_graph
                    (dict_del String.eqb (graph named_graph) "id")).
      split; [reflexivity|]. split; [reflexivity|]. eauto.
Defined.

(** C9 as stated fails where the value of [id] is [None]: the attribute is
    removed, and the graph element of either encoder carries no [id]. *)
Lemma graph_id_none :
  dict_get String.eqb (graph (B := literal_builtins) none_id_graph) "id"
  = Some (GVal VNone)
  /\ GraphMLWriter.write_graphml_xml (B := literal_builtins) false none_id_graph
     = Ok (GraphMLWriter.document
             [GraphMLWriter.key_element "d0" "graph" "name" "string" None;
              WElement "graph" [("edgedefault", VStr "directed")] None
                [WElement "node" [("id", VStr "a")] None [];
                 WElement "data" [("key", VStr "d0")] (Some "roads") []]],
           set_graph none_id_graph [("name", GVal (VStr "roads"))])
  /\ GraphMLWriterLxml.write_graphml_lxml (B := literal_builtins) false none_id_graph
     = Ok (GraphMLWriter.document
             [GraphMLWriter.key_element "d0" "graph" "name" "string" None;
              WElement "graph" [("edgedefault", VStr "directed")] None
                [WElement "data" [("key", VStr "d0")] (Some "roads") [];
                 WElement "node" [("id", VStr "a")] None []]],
           set_graph none_id_graph [("name", GVal (VStr "roads"))]).
Proof. split; [reflexivity|]. split; reflexivity. Qed.

Lemma registry_invariant_witness :
  exists w' G',
    GraphMLWriter.add_graph_element (B := literal_builtins)
      (GraphMLWriter.init false) mixed_type_graph = Ok (w', G')
    /\ registry_ok w'.
Proof.
  destruct (registry_invariant (B := literal_builtins)) as (H0 & _ & _ & H & _).
  destruct (GraphMLWriter.add_graph_element (B := literal_builtins)
              (GraphMLWriter.init false) mixed_type_graph) as [[w' G']|] eqn:E;
    [|discriminate E].
  exists w', G'. split; [reflexivity|].
  exact (proj1 (H _ _ _ _ (H0 false) E)).
Defined.

(** C4 as stated fails for the default encoder (no inference): an attribute
    seen with two types has two entries for its (name, scope) pair. *)
Lemma registry_two_entries :
  exists w' G',
    GraphMLWriter.add_graph_element (B := literal_builtins)
      (GraphMLWriter.init false) mixed_type_graph = Ok (w', G')
    /\ GraphMLWriter.keys w'
       = [(("x", "long", "node"), "d0"); (("x", "string", "node"), "d1")]
    /\ map entry_pair (GraphMLWriter.keys w') = [("x", "node"); ("x", "node")].
Proof. eexists. eexists. split; [reflexivity|]. split; reflexivity. Qed.


Lemma py_str_plain :
  forall x v, GraphMLReader.py_str (B := literal_builtins) x = Ok v -> plain v.
Proof. intros x v H. inversion H. exact I. Qed.



(** The flag [multigraph] of the reader is not reset between the graphs of
    a document: after a graph with parallel edges, a graph without any is
    kept as a multigraph. *)
Lemma second_graph_keeps_flag :
  exists G1 G2 st,
    GraphMLReader.call (B := literal_builtins)
      GraphMLReader.py_str GraphMLReader.py_int_conv GraphMLReader.init
      Examples.two_graph_document = Ok ([G1; G2], st)
    /\ is_multigraph G2 = true
    /\ map ekey (edges G2) = [Some (VStr "e1")].
Proof. eexists. eexists. eexists. split; [reflexivity|]. split; reflexivity. Qed.
